(** * ZettlrToolbar: a model of source/renderer/zettlr-toolbar.js

    The toolbar is a view object over a jQuery handle on [#toolbar].  The
    model below follows the class member by member: the DOM as trees of
    elements, the jQuery calls the class makes as functions on those trees,
    the listeners registered by [_act] and the public methods as state
    transformers over the toolbar object and the renderer it was given. *)

From Stdlib Require Import ZArith QArith String Ascii List Bool Lia.
From stdpp Require Import base option list gmap strings pretty.

Local Open Scope Z_scope.
Local Open Scope stdpp_scope.

(** ** JavaScript values and string built-ins *)

Module JS.

(** The values that reach [renderer.handleEvent] as [content]: a string read
    from an attribute, the literal [{}], or [undefined] when the argument is
    left out. *)
Inductive value : Type :=
| undefined
| str (s : string)
| empty_object.

(** [a || d] where [a] is what jQuery's [.attr(name)] returned: [undefined]
    for an attribute that is not there, otherwise its string.  The empty
    string is falsy. *)
Definition or_string (a : option string) (d : string) : string :=
  match a with
  | Some s => if decide (s = "") then d else s
  | None => d
  end.

Definition or_value (a : option string) (d : value) : value :=
  match a with
  | Some s => if decide (s = "") then d else str s
  | None => d
  end.

(** [s.substr(start)] for [0 <= start]. *)
Fixpoint substr_from (start : nat) (s : string) : string :=
  match start, s with
  | O, _ => s
  | S n, String _ s' => substr_from n s'
  | S _, EmptyString => EmptyString
  end.

(** [s.substr(0, len)]. *)
Fixpoint substr_to (len : nat) (s : string) : string :=
  match len, s with
  | O, _ => EmptyString
  | S n, String c s' => String c (substr_to n s')
  | S _, EmptyString => EmptyString
  end.

(** [s.substr(start, len)]. *)
Definition substr (start len : nat) (s : string) : string :=
  substr_to len (substr_from start s).

(** [String.prototype.toLowerCase] is a built-in of the host; the model is
    parametric in it. *)
Class Strings := { toLowerCase : string -> string }.

(** The arithmetic of JS numbers (IEEE doubles) used by [searchProgress],
    and the conversion a template literal applies to a number. *)
Class Numbers := {
  number : Type;
  div : number -> number -> number;
  mul : number -> number -> number;
  gt : number -> number -> bool;
  cos : number -> number;
  sin : number -> number;
  PI : number;
  lit_2 : number;
  lit_0_5 : number;
  to_string : number -> string
}.

End JS.

(** ** DOM trees *)

(** An element with its tag, the names in its [class] attribute, its other
    attributes, and its children: elements ([inl]) and text ([inr]). *)
#[warnings="-register-all"] Inductive Element : Type :=
| Elem (tagName : string) (classList : list string)
       (attributes : gmap string string)
       (childNodes : list (Element + string)).

Definition Node : Type := Element + string.
Definition Child (e : Element) : Node := inl e.
Definition Text (data : string) : Node := inr data.

Module DOM.

Definition tagName (e : Element) : string :=
  match e with Elem t _ _ _ => t end.

Definition classList (e : Element) : list string :=
  match e with Elem _ c _ _ => c end.

Definition attributes (e : Element) : gmap string string :=
  match e with Elem _ _ a _ => a end.

Definition childNodes (e : Element) : list Node :=
  match e with Elem _ _ _ k => k end.

(** The elements among a list of nodes. *)
Definition elements (l : list Node) : list Element :=
  omap (fun n => match n with inl e => Some e | inr _ => None end) l.

(** All elements below [e], in document order. *)
Fixpoint descendants (e : Element) : list Element :=
  match e with
  | Elem _ _ _ kids =>
      flat_map (fun k => match k with
                         | inl e' => e' :: descendants e'
                         | inr _ => []
                         end) kids
  end.

(** [textContent]. *)
Fixpoint textContent (e : Element) : string :=
  match e with
  | Elem _ _ _ kids =>
      fold_right (fun k acc => match k with
                               | inl e' => textContent e'
                               | inr s => s
                               end +:+ acc) "" kids
  end.

(** The characters that separate class names in a [class] attribute
    (space, tab, line feed, form feed, carriage return). *)
Definition is_html_space (a : ascii) : bool :=
  match a with
  | "009" | "010" | "012" | "013" | " " => true
  | _ => false
  end%char.

Definition flush (cur : string) : list string :=
  if decide (cur = "") then [] else [cur].

Fixpoint class_names_go (cur : string) (s : string) : list string :=
  match s with
  | EmptyString => flush cur
  | String a s' =>
      if is_html_space a
      then flush cur ++ class_names_go "" s'
      else class_names_go (cur +:+ String a "") s'
  end.

(** The class names listed in a string: its maximal runs of characters that
    are not white space. *)
Definition class_names (s : string) : list string := class_names_go "" s.

End DOM.

(** ** The jQuery calls the toolbar makes, on one element *)

Module JQ.
Import DOM.

Definition with_classes (f : list string -> list string) (e : Element) : Element :=
  match e with Elem t c a k => Elem t (f c) a k end.

Definition hasClass (c : string) (e : Element) : bool :=
  bool_decide (c ∈ classList e).

Definition add1 (c : string) (l : list string) : list string :=
  if bool_decide (c ∈ l) then l else l ++ [c].

Definition remove1 (c : string) (l : list string) : list string :=
  filter (fun x => x ≠ c) l.

Definition toggle1 (c : string) (l : list string) : list string :=
  if bool_decide (c ∈ l) then remove1 c l else add1 c l.

(** [.addClass(value)]: every name of [value] not yet present is appended;
    an undefined [value] adds nothing. *)
Definition addClass (value : option string) (e : Element) : Element :=
  match value with
  | Some v => with_classes (fun l => fold_left (fun l c => add1 c l) (class_names v) l) e
  | None => e
  end.

(** [.removeClass(value)]: every occurrence of every name goes. *)
Definition removeClass (value : string) (e : Element) : Element :=
  with_classes (fun l => fold_left (fun l c => remove1 c l) (class_names value) l) e.

(** [.toggleClass(value)]: per name, removed when present, added when not. *)
Definition toggleClass (value : string) (e : Element) : Element :=
  with_classes (fun l => fold_left (fun l c => toggle1 c l) (class_names value) l) e.

(** [.attr(name)]: undefined ([None]) for an attribute that is not set. *)
Definition attr (name : string) (e : Element) : option string :=
  attributes e !! name.

(** [.attr(name, value)]; with [value] undefined the call is the getter and
    sets nothing. *)
Definition attr_set (name : string) (value : option string) (e : Element) : Element :=
  match value, e with
  | Some v, Elem t c a k => Elem t c (<[name := v]> a) k
  | None, _ => e
  end.

(** [.html(markup)], the markup given parsed. *)
Definition html (parsed : list Node) (e : Element) : Element :=
  match e with Elem t c a _ => Elem t c a parsed end.

(** [.text(s)]: the element is emptied, then [textContent] is assigned. *)
Definition text (s : string) (e : Element) : Element :=
  match e with
  | Elem t c a _ => Elem t c a (if decide (s = "") then [] else [Text s])
  end.

(** [.append(child)]. *)
Definition append (child : Element) (e : Element) : Element :=
  match e with Elem t c a k => Elem t c a (k ++ [Child child]) end.

(** [.find('.c')] and [.find('tag')]. *)
Definition find_class (c : string) (e : Element) : list Element :=
  filter (fun d => hasClass c d = true) (descendants e).

Definition find_tag (t : string) (e : Element) : list Element :=
  filter (fun d => tagName d = t) (descendants e).

(** [.find('.c').attr(name, v)] carried out inside the tree. *)
Fixpoint find_class_attr_set (c name v : string) (e : Element) : Element :=
  match e with
  | Elem t cl a kids =>
      Elem t cl a
        (map (fun k =>
                match k with
                | inl e' =>
                    let e'' := find_class_attr_set c name v e' in
                    inl (if hasClass c e' then attr_set name (Some v) e'' else e'')
                | inr s => inr s
                end)
             kids)
  end.

End JQ.

(** What [.find('.c').attr(name, v)] makes of a descendant. *)
Definition attr_set_if (c name v : string) (e : Element) : Element :=
  let e' := JQ.find_class_attr_set c name v e in
  if JQ.hasClass c e then JQ.attr_set name (Some v) e' else e'.

Notation "x |> f" := (f x) (at level 45, left associativity, only parsing).

(** ** What the toolbar takes from the rest of the application *)

(** [trans] of common/lang/i18n.js and [localiseNumber] of
    common/zettlr-helpers.js are required by the class but live elsewhere;
    both are taken as given.  [trans] receives the identifier (undefined when
    a descriptor has no title) and the replacements. *)
Class I18n := {
  trans : option string -> list string -> string;
  localiseNumber : Z -> string
}.

(** The renderer handed to the constructor, by the five calls the toolbar
    makes on it.  [R] is whatever state lies behind the renderer; every call
    may change it, and [getFilesInDirectory] also answers with file names. *)
Class Renderer (R : Type) := {
  handleEvent : string -> JS.value -> R -> R;
  exitSearch : R -> R;
  beginSearch : string -> R -> R;
  getFilesInDirectory : R -> list string * R;
  getBody_showFileInfo : R -> R
}.

(** One entry of assets/toolbar/toolbar.json.  Only [role] is read for every
    entry; the other keys are read for buttons and may be left out. *)
Record Descriptor := {
  role : string;
  class : option string;
  command : option string;
  content : option string;
  title : option string
}.

(** ** The text input behind [this._searchbar] *)

Record Input := {
  input_attributes : gmap string string;
  value : string;
  selectionStart : nat;
  selectionEnd : nat;
  focused : bool
}.

Module Searchbar.

(** [.val()]. *)
Definition val (i : Input) : string := value i.

(** [.val(s)]: when the value changes the cursor moves to its end. *)
Definition val_set (s : string) (i : Input) : Input :=
  if decide (s = value i) then i
  else {| input_attributes := input_attributes i; value := s;
          selectionStart := String.length s; selectionEnd := String.length s;
          focused := focused i |}.

(** [.select()]: the whole value is selected. *)
Definition select (i : Input) : Input :=
  {| input_attributes := input_attributes i; value := value i;
     selectionStart := 0%nat; selectionEnd := String.length (value i);
     focused := focused i |}.

(** [setSelectionRange(start, end)]: positions past the end are moved to
    the end, and a start past [end] is moved to [end]. *)
Definition setSelectionRange (start end_ : nat) (i : Input) : Input :=
  let e := Nat.min end_ (String.length (value i)) in
  {| input_attributes := input_attributes i; value := value i;
     selectionStart := Nat.min start e; selectionEnd := e;
     focused := focused i |}.

Definition set_focused (b : bool) (i : Input) : Input :=
  {| input_attributes := input_attributes i; value := value i;
     selectionStart := selectionStart i; selectionEnd := selectionEnd i;
     focused := b |}.

(** [.attr(name, v)]. *)
Definition attr_set (name v : string) (i : Input) : Input :=
  {| input_attributes := <[name := v]> (input_attributes i); value := value i;
     selectionStart := selectionStart i; selectionEnd := selectionEnd i;
     focused := focused i |}.

(** The user edits the field: new text, cursor at its end. *)
Definition typed (s : string) (i : Input) : Input :=
  {| input_attributes := input_attributes i; value := s;
     selectionStart := String.length s; selectionEnd := String.length s;
     focused := focused i |}.

(** The selected part of the value. *)
Definition selected (i : Input) : string :=
  JS.substr (selectionStart i) (selectionEnd i - selectionStart i) (value i).

(** The input element as the parser delivers it. *)
Definition of_element (e : Element) : Input :=
  {| input_attributes := DOM.attributes e;
     value := default "" (DOM.attributes e !! "value");
     selectionStart := 0%nat; selectionEnd := 0%nat; focused := false |}.

End Searchbar.

(** The input after the body of the keyup listener's loop ran for a
    completing [name]: value set, all selected, focused (which selects all
    once more), then the range from the end of [typed] selected. *)
Definition completed (typed name : string) (i : Input) : Input :=
  let i :=
    Searchbar.select
      (Searchbar.set_focused true
         (Searchbar.select
            (Searchbar.val_set
               (typed +:+ JS.substr_from (String.length typed) name) i))) in
  Searchbar.setSelectionRange (String.length typed) (String.length (value i)) i.

(** ** The toolbar object *)

(** The fields the constructor sets.  [_div] is the [#toolbar] element with
    the children [_build] appends.  [_searchbar], [_fileInfo] and
    [_searchProgress] are jQuery handles on nodes of that subtree; each field
    holds the elements its handle designates, in the state reached through
    the handle: [_searchbar] is [None] when the template has no searchbar
    input, [_fileInfo] lists every [.file-info] element, and the indicator
    the constructor inserts after the first [.searchbar] is held in
    [_searchProgress] only.  No method reaches one of these nodes by a
    second path. *)
Record Toolbar := {
  _div : Element;
  _searchbar : option Input;
  _fileInfo : list Element;
  _searchProgress : Element;
  _autocomplete : list string;
  _oldval : string
}.

(** The listeners [_act] registers, in the order of registration: keyup on
    the searchbar, click on [.end-search], focus and blur on the searchbar,
    click on [.file-info], click on [.button], dblclick on [#toolbar].  (The
    tooltips [_act] asks of tippy are not part of the model.) *)
Inductive Listener : Type :=
| OnKeyup | OnEndSearchClick | OnFocus | OnBlur
| OnFileInfoClick | OnButtonClick | OnDblclick.

#[global] Instance Listener_eq_dec : EqDecision Listener.
Proof. solve_decision. Defined.

(** The toolbar together with the renderer behind [this._renderer].  [fired]
    records which listeners have run, oldest first; no code reads it. *)
Record World (R : Type) := {
  this : Toolbar;
  renderer : R;
  fired : list Listener
}.
Arguments this {R} _.
Arguments renderer {R} _.
Arguments fired {R} _.

(** What a method hands back: [this] or nothing. *)
Inductive Ret : Type := RetThis | RetUndefined.

Module Markup.

Definition attrs (l : list (string * string)) : gmap string string :=
  list_to_map l.

(** U+00D7, the character [&times;] stands for. *)
Definition times : string := String "215"%char "".

(** [<input type="text"><div class="end-search">&times;</div>] *)
Definition searchbar : list Node :=
  [ Child (Elem "input" [] (attrs [("type", "text")]) []);
    Child (Elem "div" ["end-search"] ∅ [Text times]) ].

Definition meter_attrs : list (string * string) :=
  [("cx", "0"); ("cy", "0"); ("r", "1"); ("shape-rendering", "geometricPrecision")].

Definition value_attrs : list (string * string) :=
  [("d", ""); ("fill", ""); ("shape-rendering", "geometricPrecision")].

Definition svg_attrs : list (string * string) :=
  [("width", "20"); ("height", "20"); ("viewBox", "-1 -1 2 2")].

(** The [<svg>] of the pomodoro button. *)
Definition pomodoro : list Node :=
  [ Child (Elem "svg" [] (attrs svg_attrs)
      [ Child (Elem "circle" ["pomodoro-meter"] (attrs meter_attrs) []);
        Child (Elem "path" ["pomodoro-value"] (attrs value_attrs) []) ]) ].

(** The progress indicator circle the constructor creates, hidden. *)
Definition search_progress : Element :=
  Elem "svg" ["hidden"] (attrs (("id", "search-progress-indicator") :: svg_attrs))
    [ Child (Elem "circle" ["indicator-meter"] (attrs meter_attrs) []);
      Child (Elem "path" ["indicator-value"] (attrs value_attrs) []) ].

End Markup.

Section Toolbar.
Context {Str : JS.Strings} {Num : JS.Numbers} {Tr : I18n}.
Context {R : Type} {Rd : Renderer R}.

(** *** Field updates *)

Definition set_div (f : Element -> Element) (t : Toolbar) : Toolbar :=
  {| _div := f (_div t); _searchbar := _searchbar t; _fileInfo := _fileInfo t;
     _searchProgress := _searchProgress t; _autocomplete := _autocomplete t;
     _oldval := _oldval t |}.

Definition set_searchbar (f : Input -> Input) (t : Toolbar) : Toolbar :=
  {| _div := _div t; _searchbar := f <$> _searchbar t; _fileInfo := _fileInfo t;
     _searchProgress := _searchProgress t; _autocomplete := _autocomplete t;
     _oldval := _oldval t |}.

Definition set_fileInfo (f : Element -> Element) (t : Toolbar) : Toolbar :=
  {| _div := _div t; _searchbar := _searchbar t; _fileInfo := f <$> _fileInfo t;
     _searchProgress := _searchProgress t; _autocomplete := _autocomplete t;
     _oldval := _oldval t |}.

Definition set_searchProgress (f : Element -> Element) (t : Toolbar) : Toolbar :=
  {| _div := _div t; _searchbar := _searchbar t; _fileInfo := _fileInfo t;
     _searchProgress := f (_searchProgress t); _autocomplete := _autocomplete t;
     _oldval := _oldval t |}.

Definition set_autocomplete (l : list string) (t : Toolbar) : Toolbar :=
  {| _div := _div t; _searchbar := _searchbar t; _fileInfo := _fileInfo t;
     _searchProgress := _searchProgress t; _autocomplete := l;
     _oldval := _oldval t |}.

Definition set_oldval (s : string) (t : Toolbar) : Toolbar :=
  {| _div := _div t; _searchbar := _searchbar t; _fileInfo := _fileInfo t;
     _searchProgress := _searchProgress t; _autocomplete := _autocomplete t;
     _oldval := s |}.

(** A step on the toolbar, on the renderer, and a note in [fired]. *)
Definition on_this (f : Toolbar -> Toolbar) (w : World R) : World R :=
  {| this := f (this w); renderer := renderer w; fired := fired w |}.

Definition on_renderer (f : R -> R) (w : World R) : World R :=
  {| this := this w; renderer := f (renderer w); fired := fired w |}.

Definition enter (l : Listener) (w : World R) : World R :=
  {| this := this w; renderer := renderer w; fired := fired w ++ [l] |}.

(** [this._searchbar.val()]; the listeners that read it sit on the
    searchbar and run only when there is one. *)
Definition searchbar_val (w : World R) : string :=
  default "" (Searchbar.val <$> _searchbar (this w)).

(** *** _build *)

Definition build_child (elem : Descriptor) : Element :=
  let child := Elem "div" [] ∅ [] |> JQ.addClass (Some (role elem)) in
  if decide (role elem = "button") then
    child |> JQ.addClass (class elem)
          |> JQ.attr_set "data-command" (command elem)
          |> JQ.attr_set "data-content" (content elem)
          |> JQ.attr_set "title" (Some (trans (title elem) []))
  else if decide (role elem = "searchbar") then
    child |> JQ.html Markup.searchbar
  else if decide (role elem = "pomodoro") then
    child |> JQ.addClass (Some "button")
          |> JQ.attr_set "data-command" (Some "pomodoro")
          |> JQ.html Markup.pomodoro
  else child.

(** The loop of [_build] over the template [tpl]. *)
Definition _build (tpl : list Descriptor) (div : Element) : Element :=
  fold_left (fun d elem => JQ.append (build_child elem) d) tpl div.

(** *** Listeners *)

(** The [blur] listener. *)
Definition on_blur (w : World R) : World R :=
  w |> enter OnBlur
    |> on_this (set_autocomplete [])
    |> on_this (set_oldval "").

(** The [focus] listener. *)
Definition on_focus (w : World R) : World R :=
  let w := w |> enter OnFocus |> on_this (set_searchbar Searchbar.select) in
  let '(files, r) := getFilesInDirectory (renderer w) in
  {| this := set_autocomplete files (this w); renderer := r; fired := fired w |}.

(** [this._searchbar.blur()] and [this._searchbar.focus()]: jQuery's
    shorthands for [.trigger('blur')] and [.trigger('focus')], which move
    the focus and run the listeners registered for the event.  On an empty
    handle they do nothing.  A non-empty handle is taken to designate an
    input that is still in the page; in a toolbar constructed over an empty
    [#toolbar] it always is, since nothing the class does removes it. *)
Definition jq_blur (w : World R) : World R :=
  match _searchbar (this w) with
  | Some _ => w |> on_this (set_searchbar (Searchbar.set_focused false)) |> on_blur
  | None => w
  end.

Definition jq_focus (w : World R) : World R :=
  match _searchbar (this w) with
  | Some _ => w |> on_this (set_searchbar (Searchbar.set_focused true)) |> on_focus
  | None => w
  end.

(** One turn of the loop body of the [keyup] listener: does [name] start
    with the stored value, case notwithstanding? *)
Definition completes (oldval name : string) : bool :=
  bool_decide (JS.toLowerCase (JS.substr 0 (String.length oldval) name)
               = JS.toLowerCase oldval).

(** The [for ... of this._autocomplete] loop with its [break]; [names] is
    what remains of the array the loop started on. *)
Fixpoint autocomplete_loop (names : list string) (w : World R) : World R :=
  match names with
  | [] => w
  | name :: rest =>
      let oldval := _oldval (this w) in
      if completes oldval name then
        let w :=
          w |> on_this (set_searchbar
                   (Searchbar.val_set
                      (oldval +:+ JS.substr_from (String.length oldval) name)))
            |> on_this (set_searchbar Searchbar.select)
            |> jq_focus in
        w |> on_this (set_searchbar
                 (Searchbar.setSelectionRange
                    (String.length (_oldval (this w)))
                    (String.length (searchbar_val w))))
      else autocomplete_loop rest w
  end.

(** The [keyup] listener of the searchbar; [which] is [e.which]. *)
Definition on_keyup (which : Z) (w : World R) : World R :=
  let w := enter OnKeyup w in
  if which =? 27 then
    w |> jq_blur
      |> on_this (set_searchbar (Searchbar.val_set ""))
      |> on_renderer exitSearch
  else if which =? 13 then
    w |> on_renderer (beginSearch (searchbar_val w))
      |> on_this (set_searchbar Searchbar.select)
  else if (which =? 8) || (which =? 46) then w
  else if bool_decide (searchbar_val w = "")
          || bool_decide (searchbar_val w = _oldval (this w)) then w
  else
    let w := on_this (set_oldval (searchbar_val w)) w in
    let w := autocomplete_loop (_autocomplete (this w)) w in
    on_this (set_oldval (searchbar_val w)) w.

(** The [click] listener of [.end-search]. *)
Definition on_end_search_click (w : World R) : World R :=
  w |> enter OnEndSearchClick
    |> jq_blur
    |> on_this (set_searchbar (Searchbar.val_set ""))
    |> on_renderer exitSearch.

(** The [click] listener of [.file-info]. *)
Definition on_file_info_click (w : World R) : World R :=
  w |> enter OnFileInfoClick |> on_renderer getBody_showFileInfo.

(** The [click] listener of [.button]; [elem] is [e.currentTarget]. *)
Definition on_button_click (elem : Element) (w : World R) : World R :=
  let command := JS.or_string (JQ.attr "data-command" elem) "unknown-command" in
  let content := JS.or_value (JQ.attr "data-content" elem) JS.empty_object in
  w |> enter OnButtonClick |> on_renderer (handleEvent command content).

(** The [dblclick] listener of the toolbar. *)
Definition on_dblclick (w : World R) : World R :=
  w |> enter OnDblclick |> on_renderer (handleEvent "app-maximise" JS.undefined).

(** *** Public methods *)

Definition hideWordCount (w : World R) : Ret * World R :=
  (RetThis, on_this (set_fileInfo (JQ.text "")) w).

Definition updateWordCount (words : Z) (w : World R) : Ret * World R :=
  if words =? 0 then hideWordCount w
  else (RetUndefined,
        on_this (set_fileInfo
                   (JQ.text (trans (Some "gui.words") [localiseNumber words]))) w).

Definition toggleDistractionFree (w : World R) : Ret * World R :=
  (RetThis, on_this (set_div (JQ.toggleClass "mute")) w).

Definition focusSearch (w : World R) : Ret * World R :=
  (RetThis, w |> jq_focus |> on_this (set_searchbar Searchbar.select)).

Definition setSearch (term : string) (w : World R) : Ret * World R :=
  (RetUndefined, on_this (set_searchbar (Searchbar.val_set term)) w).

(** The [d] attribute [searchProgress] writes. *)
Definition arc (item itemCnt : JS.number) : string :=
  let progress := JS.div item itemCnt in
  let large := if JS.gt progress JS.lit_0_5 then "1" else "0" in
  let x := JS.cos (JS.mul (JS.mul JS.lit_2 JS.PI) progress) in
  let y := JS.sin (JS.mul (JS.mul JS.lit_2 JS.PI) progress) in
  "M 1 0 A 1 1 0 " +:+ large +:+ " 1 " +:+ JS.to_string x +:+ " "
    +:+ JS.to_string y +:+ " L 0 0".

Definition searchProgress (item itemCnt : JS.number) (w : World R) : Ret * World R :=
  if JQ.hasClass "hidden" (_searchProgress (this w)) then
    (RetUndefined, on_this (set_searchProgress (JQ.removeClass "hidden")) w)
  else
    (RetUndefined,
     on_this (set_searchProgress
                (JQ.find_class_attr_set "indicator-value" "d" (arc item itemCnt))) w).

Definition endSearch (w : World R) : Ret * World R :=
  (RetUndefined, on_this (set_searchProgress (JQ.addClass (Some "hidden"))) w).

(** *** Constructor *)

(** [this._div.find('.searchbar').first().find('input').first()] *)
Definition find_searchbar (div : Element) : option Element :=
  head (JQ.find_class "searchbar" div) ≫= fun sb => head (JQ.find_tag "input" sb).

(** [div] is what [$('#toolbar')] designates in the page, [tpl] the
    [toolbar] array of assets/toolbar/toolbar.json. *)
Definition constructor (tpl : list Descriptor) (div : Element) : Toolbar :=
  let div := _build tpl div in
  {| _div := div;
     _searchbar :=
       Searchbar.attr_set "placeholder" (trans (Some "gui.find_placeholder") [])
         <$> (Searchbar.of_element <$> find_searchbar div);
     _fileInfo := JQ.find_class "file-info" div;
     _searchProgress := Markup.search_progress;
     _autocomplete := [];
     _oldval := "" |}.

Definition new (tpl : list Descriptor) (div : Element) (r : R) : World R :=
  {| this := constructor tpl div; renderer := r; fired := [] |}.

End Toolbar.

(** ** Events *)

(** The public methods, as the renderer may invoke them. *)
Inductive Method {Num : JS.Numbers} : Type :=
| UpdateWordCount (words : Z)
| HideWordCount
| ToggleDistractionFree
| FocusSearch
| SetSearch (term : string)
| SearchProgress (item itemCnt : JS.number)
| EndSearch.

(** What can happen to a toolbar once constructed.  [Click elem] is a click
    event arriving at [elem], one of the elements [_act] bound listeners to;
    [Keyup], [Focus], [Blur] and [Edit] happen on the searchbar input. *)
Inductive Event {Num : JS.Numbers} : Type :=
| Keyup (which : Z)
| Edit (text : string)
| Focus
| Blur
| Click (currentTarget : Element)
| Dblclick
| Invoke (m : Method).

Section Dispatch.
Context {Str : JS.Strings} {Num : JS.Numbers} {Tr : I18n}.
Context {R : Type} {Rd : Renderer R}.

Definition call (m : Method) (w : World R) : Ret * World R :=
  match m with
  | UpdateWordCount words => updateWordCount words w
  | HideWordCount => hideWordCount w
  | ToggleDistractionFree => toggleDistractionFree w
  | FocusSearch => focusSearch w
  | SetSearch term => setSearch term w
  | SearchProgress item itemCnt => searchProgress item itemCnt w
  | EndSearch => endSearch w
  end.

(** The click listeners that run at [elem], in the order [_act] bound
    them: [.end-search], [.file-info], [.button]. *)
Definition click_at (elem : Element) (w : World R) : World R :=
  let w := if JQ.hasClass "end-search" elem then on_end_search_click w else w in
  let w := if JQ.hasClass "file-info" elem then on_file_info_click w else w in
  if JQ.hasClass "button" elem then on_button_click elem w else w.

(** The listener [l] run on its own; [which] and [elem] are the parts of
    the event object the keyup and the button listeners read. *)
Definition listen (l : Listener) (which : Z) (elem : Element) (w : World R) : World R :=
  match l with
  | OnKeyup => on_keyup which w
  | OnEndSearchClick => on_end_search_click w
  | OnFocus => on_focus w
  | OnBlur => on_blur w
  | OnFileInfoClick => on_file_info_click w
  | OnButtonClick => on_button_click elem w
  | OnDblclick => on_dblclick w
  end.

Definition handle (ev : Event) (w : World R) : World R :=
  match ev with
  | Keyup which =>
      if _searchbar (this w) is Some _ then on_keyup which w else w
  | Edit text => on_this (set_searchbar (Searchbar.typed text)) w
  | Focus =>
      if _searchbar (this w) is Some _
      then w |> on_this (set_searchbar (Searchbar.set_focused true)) |> on_focus
      else w
  | Blur =>
      if _searchbar (this w) is Some _
      then w |> on_this (set_searchbar (Searchbar.set_focused false)) |> on_blur
      else w
  | Click elem => click_at elem w
  | Dblclick => on_dblclick w
  | Invoke m => (call m w).2
  end.

Definition run (evs : list Event) (w : World R) : World R :=
  fold_left (fun w ev => handle ev w) evs w.

(** The latest of the focus and blur listeners in a record of listener
    runs, if either ran. *)
Definition last_focus_or_blur (l : list Listener) : option Listener :=
  last (filter (fun x => x = OnFocus ∨ x = OnBlur) l).


End Dispatch.

(** ** A renderer that records the calls it receives *)

Inductive Call : Type :=
| HandleEvent (command : string) (content : JS.value)
| ExitSearch
| BeginSearch (term : string)
| GetFilesInDirectory
| GetBody_ShowFileInfo.

Module Recorder.

(** [files] is the listing [getFilesInDirectory] answers with, [calls] the
    calls received so far, oldest first. *)
Record t := { files : list string; calls : list Call }.

Definition record (c : Call) (r : t) : t :=
  {| files := files r; calls := calls r ++ [c] |}.

#[global] Instance renderer : Renderer t := {
  handleEvent command content := record (HandleEvent command content);
  exitSearch := record ExitSearch;
  beginSearch term := record (BeginSearch term);
  getFilesInDirectory r := (files r, record GetFilesInDirectory r);
  getBody_showFileInfo := record GetBody_ShowFileInfo
}.

Definition is_handleEvent (c : Call) : bool :=
  match c with HandleEvent _ _ => true | _ => false end.

End Recorder.

(** The calls made on a recording renderer between [w] and [w']. *)
Definition made (w w' : World Recorder.t) (new : list Call) : Prop :=
  Recorder.calls (renderer w') = Recorder.calls (renderer w) ++ new.

(** ** Instances to run the model on *)

Module Sample.

Definition lower (a : ascii) : ascii :=
  let n := nat_of_ascii a in
  if (65 <=? n)%nat && (n <=? 90)%nat then ascii_of_nat (n + 32) else a.

Fixpoint lower_string (s : string) : string :=
  match s with
  | EmptyString => EmptyString
  | String a s' => String (lower a) (lower_string s')
  end.

(** Lower-casing of the letters A to Z. *)
#[global] Instance strings : JS.Strings := {| JS.toLowerCase := lower_string |}.

(** A translation table that answers with the identifier followed by its
    replacements, and numbers printed in decimal. *)
#[global] Instance i18n : I18n := {|
  trans id args :=
    fold_left (fun acc a => acc +:+ " " +:+ a) args (default "undefined" id);
  localiseNumber := pretty
|}.

(** Numbers as the terms that denote them, compared exactly where both
    sides are rational. *)
Inductive term : Type :=
| Int (z : Z) | Half | Pi
| Div (a b : term) | Mul (a b : term) | Cos (a : term) | Sin (a : term).

Fixpoint rational (t : term) : option Q :=
  match t with
  | Int z => Some (inject_Z z)
  | Half => Some (1 # 2)%Q
  | Div a b =>
      a' ← rational a; b' ← rational b;
      if Qeq_bool b' 0 then None else Some (a' / b')%Q
  | Mul a b => a' ← rational a; b' ← rational b; Some (a' * b')%Q
  | Pi | Cos _ | Sin _ => None
  end.

Fixpoint show (t : term) : string :=
  match t with
  | Int z => pretty z
  | Half => "0.5"
  | Pi => "pi"
  | Div a b => "(" +:+ show a +:+ "/" +:+ show b +:+ ")"
  | Mul a b => "(" +:+ show a +:+ "*" +:+ show b +:+ ")"
  | Cos a => "cos(" +:+ show a +:+ ")"
  | Sin a => "sin(" +:+ show a +:+ ")"
  end.

#[global] Instance numbers : JS.Numbers := {|
  JS.number := term;
  JS.div := Div;
  JS.mul := Mul;
  JS.gt a b :=
    match rational a, rational b with
    | Some x, Some y => negb (Qle_bool x y)
    | _, _ => false
    end;
  JS.cos := Cos;
  JS.sin := Sin;
  JS.PI := Pi;
  JS.lit_2 := Int 2;
  JS.lit_0_5 := Half;
  JS.to_string := show
|}.

Definition file_new : Descriptor :=
  {| role := "button"; class := Some "file-new"; command := Some "file-new";
     content := Some "{}"; title := Some "toolbar.file_new" |}.

(** A four-entry template and the page's empty [#toolbar]. *)
Definition tpl : list Descriptor :=
  [ file_new;
    {| role := "searchbar"; class := None; command := None;
       content := None; title := None |};
    {| role := "file-info"; class := None; command := None;
       content := None; title := None |};
    {| role := "pomodoro"; class := None; command := None;
       content := None; title := Some "toolbar.pomodoro" |} ].

Definition toolbar_div : Element :=
  Elem "div" [] (Markup.attrs [("id", "toolbar")]) [].

(** A button whose data attributes are set to the empty string. *)
Definition blank_button : Element :=
  Elem "div" ["button"]
    (Markup.attrs [("data-command", ""); ("data-content", "")]) [].

Definition directory : Recorder.t :=
  {| Recorder.files := ["Notes.md"; "notebook.md"; "Readme.md"];
     Recorder.calls := [] |}.

Definition world : World Recorder.t := new tpl toolbar_div directory.

(** The sample toolbar once the user has focused the searchbar and typed
    two letters, and the input as it then stands. *)
Definition typing : World Recorder.t := run [Focus; Edit "no"] world.

Definition typed : Input :=
  {| input_attributes :=
       Markup.attrs [("type", "text"); ("placeholder", "gui.find_placeholder")];
     value := "no"; selectionStart := 2%nat; selectionEnd := 2%nat;
     focused := true |}.

(** The sample toolbar with the progress indicator shown. *)
Definition searching_world : World Recorder.t :=
  run [Invoke (SearchProgress (Int 1) (Int 4))] world.





(** More of the sample: descriptors on their own, a button that lists
    [searchbar] among its classes, and the toolbar with the whole of a file
    name typed. *)
Definition searchbar_descriptor : Descriptor :=
  {| role := "searchbar"; class := None; command := None;
     content := None; title := None |}.

Definition pomodoro_descriptor : Descriptor :=
  {| role := "pomodoro"; class := None; command := None;
     content := None; title := Some "toolbar.pomodoro" |}.

Definition wide_button : Descriptor :=
  {| role := "button"; class := Some "searchbar wide"; command := Some "find";
     content := None; title := Some "toolbar.find" |}.

Definition full_typing : World Recorder.t := run [Focus; Edit "readme.md"] world.

Definition full_typed : Input :=
  {| input_attributes :=
       Markup.attrs [("type", "text"); ("placeholder", "gui.find_placeholder")];
     value := "readme.md"; selectionStart := 9%nat; selectionEnd := 9%nat;
     focused := true |}.

End Sample.

(** ** Notions the further properties are stated with *)

(** The [handleEvent] call an event gives rise to: one for a click arriving
    at a [.button] element, one for a double click, none otherwise. *)
Definition dispatched {Num : JS.Numbers} (ev : Event) : list Call :=
  match ev with
  | Click elem =>
      if JQ.hasClass "button" elem
      then [HandleEvent
              (JS.or_string (JQ.attr "data-command" elem) "unknown-command")
              (JS.or_value (JQ.attr "data-content" elem) JS.empty_object)]
      else []
  | Dblclick => [HandleEvent "app-maximise" JS.undefined]
  | _ => []
  end.

(** The [handleEvent] calls among the calls a renderer received. *)
Definition handleEvents (l : list Call) : list Call :=
  filter (fun c => Recorder.is_handleEvent c = true) l.

(** A [d] attribute is still empty or is an arc [searchProgress] wrote. *)
Definition blank_or_arc {Num : JS.Numbers} (d : string) : Prop :=
  d = "" \/ exists item itemCnt : JS.number, d = arc item itemCnt.

(** [w'] has the toolbar's own classes and children, the file-info elements
    and the progress indicator as [w] has them. *)
Definition same_outside_searchbar {R : Type} (w w' : World R) : Prop :=
  _div (this w') = _div (this w)
  /\ _fileInfo (this w') = _fileInfo (this w)
  /\ _searchProgress (this w') = _searchProgress (this w).

(** * Properties *)

(** ** Strings *)

Lemma append_cons (a : ascii) (s t : string) :
  String a s +:+ t = String a (s +:+ t).
Proof. reflexivity. Qed.

Lemma append_empty_r (s : string) : s +:+ "" = s.
Proof.
  induction s as [|a s IH]; [reflexivity |].
  by rewrite append_cons, IH.
Qed.

Lemma length_append (a b : string) :
  String.length (a +:+ b) = (String.length a + String.length b)%nat.
Proof.
  induction a as [|c a IH]; [reflexivity |].
  rewrite append_cons. simpl. by rewrite IH.
Qed.

Lemma substr_from_append (a b : string) :
  JS.substr_from (String.length a) (a +:+ b) = b.
Proof.
  induction a as [|c a IH]; [by destruct b |].
  rewrite append_cons. exact IH.
Qed.

Lemma substr_to_all (s : string) : JS.substr_to (String.length s) s = s.
Proof. induction s as [|c s IH]; simpl; [reflexivity | by rewrite IH]. Qed.

(** ** The calls a recording renderer receives *)

Section Recorded.
Context {Str : JS.Strings} {Num : JS.Numbers} {Tr : I18n}.
Implicit Types w : World Recorder.t.

Lemma made_refl w : made w w [].
Proof. unfold made. by rewrite app_nil_r. Qed.

Lemma made_same w w' : renderer w' = renderer w -> made w w' [].
Proof. unfold made. intros ->. by rewrite app_nil_r. Qed.

Lemma made_trans w1 w2 w3 l1 l2 :
  made w1 w2 l1 -> made w2 w3 l2 -> made w1 w3 (l1 ++ l2).
Proof. unfold made. intros H1 H2. by rewrite H2, H1, app_assoc. Qed.

Lemma made_on_blur w : made w (on_blur w) [].
Proof. by apply made_same. Qed.

Lemma made_jq_blur w : made w (jq_blur w) [].
Proof. unfold jq_blur. by destruct (_searchbar (this w)); apply made_same. Qed.

Lemma made_on_focus w : made w (on_focus w) [GetFilesInDirectory].
Proof. reflexivity. Qed.

Lemma made_on_end_search_click w : made w (on_end_search_click w) [ExitSearch].
Proof.
  unfold on_end_search_click.
  apply (made_trans _ _ _ [] [ExitSearch] (made_jq_blur (enter OnEndSearchClick w))).
  reflexivity.
Qed.

Lemma made_on_file_info_click w :
  made w (on_file_info_click w) [GetBody_ShowFileInfo].
Proof. reflexivity. Qed.

Lemma made_on_button_click elem w :
  made w (on_button_click elem w)
    [HandleEvent (JS.or_string (JQ.attr "data-command" elem) "unknown-command")
                 (JS.or_value (JQ.attr "data-content" elem) JS.empty_object)].
Proof. reflexivity. Qed.

Lemma made_on_dblclick w :
  made w (on_dblclick w) [HandleEvent "app-maximise" JS.undefined].
Proof. reflexivity. Qed.

Lemma made_autocomplete_loop names w :
  made w (autocomplete_loop names w) [] \/
  made w (autocomplete_loop names w) [GetFilesInDirectory].
Proof.
  induction names as [|name rest IH]; simpl; [left; apply made_refl |].
  destruct (completes _ name); [| exact IH].
  unfold jq_focus. simpl.
  destruct (_searchbar (this w)); simpl; [right; reflexivity | left; by apply made_same].
Qed.

Lemma made_on_keyup which w :
  exists new, made w (on_keyup which w) new /\
    if which =? 27 then new = [ExitSearch]
    else if which =? 13 then new = [BeginSearch (searchbar_val w)]
    else new = [] \/ new = [GetFilesInDirectory].
Proof.
  unfold on_keyup.
  destruct (which =? 27) eqn:E27.
  { exists [ExitSearch]. split; [| reflexivity].
    apply (made_trans _ _ _ [] [ExitSearch] (made_jq_blur (enter OnKeyup w))).
    reflexivity. }
  destruct (which =? 13) eqn:E13.
  { eexists. split; reflexivity. }
  destruct ((which =? 8) || (which =? 46)).
  { exists []. split; [by apply made_same | by left]. }
  destruct (_ || _).
  { exists []. split; [by apply made_same | by left]. }
  match goal with
  | |- context [autocomplete_loop ?n ?x] =>
      destruct (made_autocomplete_loop n x) as [H|H]
  end.
  - exists []. split; [exact H | by left].
  - exists [GetFilesInDirectory]. split; [exact H | by right].
Qed.

(** C1 (as amended).  A click arriving at an element with class [button]
    makes exactly one [handleEvent] call on the renderer.  Its command is
    the element's [data-command] attribute, or ['unknown-command'] when
    the attribute is missing or is the empty string; its content is the
    [data-content] attribute, or [{}] when that attribute is missing or
    is the empty string. *)
Theorem button_click_calls_handleEvent_once (elem : Element) w :
  JQ.hasClass "button" elem = true ->
  exists before command content,
    made w (click_at elem w) (before ++ [HandleEvent command content]) /\
    Forall (fun c => Recorder.is_handleEvent c = false) before /\
    command = match JQ.attr "data-command" elem with
              | Some s => if decide (s = "") then "unknown-command" else s
              | None => "unknown-command"
              end /\
    content = match JQ.attr "data-content" elem with
              | Some s => if decide (s = "") then JS.empty_object else JS.str s
              | None => JS.empty_object
              end.
Proof.
  intros Hb. unfold click_at. rewrite Hb.
  set (w1 := if JQ.hasClass "end-search" elem then on_end_search_click w else w).
  set (w2 := if JQ.hasClass "file-info" elem then on_file_info_click w1 else w1).
  set (l1 := if JQ.hasClass "end-search" elem then [ExitSearch] else []).
  set (l2 := if JQ.hasClass "file-info" elem then [GetBody_ShowFileInfo] else []).
  assert (H1 : made w w1 l1).
  { subst w1 l1. destruct (JQ.hasClass "end-search" elem);
      [apply made_on_end_search_click | apply made_refl]. }
  assert (H2 : made w1 w2 l2).
  { subst w2 l2. destruct (JQ.hasClass "file-info" elem);
      [apply made_on_file_info_click | apply made_refl]. }
  exists (l1 ++ l2). do 2 eexists.
  split; [| split; [| split; reflexivity]].
  - eapply made_trans; [eapply made_trans; eassumption |].
    apply made_on_button_click.
  - subst l1 l2. apply Forall_app. split.
    + destruct (JQ.hasClass "end-search" elem); repeat constructor.
    + destruct (JQ.hasClass "file-info" elem); repeat constructor.
Qed.

(** C5 (as amended).  What each listener asks of the renderer: the button
    click and the double click go through [handleEvent]; keyup calls
    [exitSearch] on ESC, [beginSearch] with the searchbar value on RETURN
    and otherwise at most [getFilesInDirectory]; the end-search click calls
    [exitSearch], focus calls [getFilesInDirectory], the file-info click
    calls [getBody().showFileInfo], and blur calls nothing. *)
Theorem listener_renderer_calls (l : Listener) (which : Z) (elem : Element) w :
  exists new, made w (listen l which elem w) new /\
    match l with
    | OnButtonClick => exists command content, new = [HandleEvent command content]
    | OnDblclick => new = [HandleEvent "app-maximise" JS.undefined]
    | OnKeyup =>
        if which =? 27 then new = [ExitSearch]
        else if which =? 13 then new = [BeginSearch (searchbar_val w)]
        else new = [] \/ new = [GetFilesInDirectory]
    | OnEndSearchClick => new = [ExitSearch]
    | OnFocus => new = [GetFilesInDirectory]
    | OnBlur => new = []
    | OnFileInfoClick => new = [GetBody_ShowFileInfo]
    end.
Proof.
  destruct l; simpl.
  - apply made_on_keyup.
  - eexists; split; [apply made_on_end_search_click | reflexivity].
  - eexists; split; [apply made_on_focus | reflexivity].
  - eexists; split; [apply made_on_blur | reflexivity].
  - eexists; split; [apply made_on_file_info_click | reflexivity].
  - eexists; split; [apply made_on_button_click | eauto].
  - eexists; split; [apply made_on_dblclick | reflexivity].
Qed.

End Recorded.

(** C1, witness: the first button of the sample template. *)
Lemma button_click_calls_handleEvent_once_witness :
  JQ.hasClass "button" (build_child Sample.file_new) = true /\
  exists before command content,
    made Sample.world
      (click_at
         (build_child Sample.file_new) Sample.world)
      (before ++ [HandleEvent command content]) /\
    Forall (fun c => Recorder.is_handleEvent c = false) before /\
    command = "file-new" /\ content = JS.str "{}".
Proof.
  split; [reflexivity |].
  destruct (button_click_calls_handleEvent_once
              (build_child Sample.file_new) Sample.world
              eq_refl)
    as (before & command & content & Hm & Hb & Hc & Hk).
  exists before, command, content. repeat split; assumption.
Defined.

(** C1 as stated fails: a button whose [data-command] and [data-content] are
    present but empty is dispatched as ['unknown-command'] with [{}], not
    with the attributes' values. *)
Lemma button_click_empty_attributes :
  JQ.hasClass "button" Sample.blank_button = true /\
  JQ.attr "data-command" Sample.blank_button = Some "" /\
  JQ.attr "data-content" Sample.blank_button = Some "" /\
  Recorder.calls
    (renderer (click_at Sample.blank_button Sample.world))
  = [HandleEvent "unknown-command" JS.empty_object] /\
  HandleEvent "unknown-command" JS.empty_object <> HandleEvent "" (JS.str "").
Proof. repeat split; try reflexivity. discriminate. Qed.

(** C5 as stated fails: on ESC the keyup listener calls [exitSearch], which
    is not a [handleEvent] invocation. *)
Lemma keyup_escape_calls_exitSearch :
  Recorder.calls
    (renderer (listen OnKeyup 27 Sample.toolbar_div Sample.world))
  = [ExitSearch] /\
  ~ Forall (fun c => Recorder.is_handleEvent c = true)
      (Recorder.calls
         (renderer (listen OnKeyup 27 Sample.toolbar_div Sample.world))).
Proof.
  split; [reflexivity |].
  intros H. apply Forall_inv in H. discriminate H.
Qed.

(** ** The searchbar listeners *)

Section Searchbar_facts.
Context {Str : JS.Strings} {Num : JS.Numbers} {Tr : I18n}.
Context {R : Type} {Rd : Renderer R}.
Implicit Types (w : World R) (i : Input).

Lemma value_val_set s i : value (Searchbar.val_set s i) = s.
Proof. unfold Searchbar.val_set. by destruct (decide (s = value i)). Qed.

Lemma this_on_focus w :
  this (on_focus w)
  = set_autocomplete (getFilesInDirectory (renderer w)).1
      (set_searchbar Searchbar.select (this w)).
Proof. unfold on_focus. simpl. by destruct (getFilesInDirectory (renderer w)). Qed.


Lemma searchbar_jq_focus w i :
  _searchbar (this w) = Some i ->
  _searchbar (this (jq_focus w))
  = Some (Searchbar.select (Searchbar.set_focused true i)).
Proof.
  intros Hi. unfold jq_focus. rewrite Hi, this_on_focus. simpl. by rewrite Hi.
Qed.

Lemma oldval_jq_focus w : _oldval (this (jq_focus w)) = _oldval (this w).
Proof.
  unfold jq_focus. destruct (_searchbar (this w)); [| reflexivity].
  by rewrite this_on_focus.
Qed.

Lemma completed_value typed name i :
  value (completed typed name i)
  = typed +:+ JS.substr_from (String.length typed) name.
Proof. unfold completed. simpl. apply value_val_set. Qed.

Lemma completed_selection typed name i :
  selectionStart (completed typed name i) = String.length typed /\
  selectionEnd (completed typed name i)
  = String.length (value (completed typed name i)).
Proof.
  rewrite completed_value. unfold completed. simpl.
  rewrite value_val_set, length_append. split; lia.
Qed.

Lemma completed_selected typed name i :
  Searchbar.selected (completed typed name i)
  = JS.substr_from (String.length typed) name.
Proof.
  unfold Searchbar.selected.
  destruct (completed_selection typed name i) as [-> ->].
  rewrite completed_value, length_append.
  unfold JS.substr. rewrite substr_from_append.
  replace (String.length typed + _ - String.length typed)%nat
    with (String.length (JS.substr_from (String.length typed) name)) by lia.
  apply substr_to_all.
Qed.

(** The loop stops at the first completing name, and changes nothing when
    there is none. *)
Lemma autocomplete_loop_searchbar names w i :
  _searchbar (this w) = Some i ->
  exists i',
    _searchbar (this (autocomplete_loop names w)) = Some i' /\
    (forall before name after,
        names = before ++ name :: after ->
        Forall (fun n => completes (_oldval (this w)) n = false) before ->
        completes (_oldval (this w)) name = true ->
        i' = completed (_oldval (this w)) name i) /\
    (Forall (fun n => completes (_oldval (this w)) n = false) names -> i' = i).
Proof.
  intros Hi. induction names as [|n rest IH]; simpl.
  - exists i. split; [exact Hi | split; [| reflexivity]].
    intros before name after Heq. by destruct before.
  - destruct (completes (_oldval (this w)) n) eqn:Hn.
    + exists (completed (_oldval (this w)) n i). split; [| split].
      * set (w1 := on_this _ (on_this _ w)).
        assert (H1 : _searchbar (this w1)
                     = Some (Searchbar.select (Searchbar.val_set
                         (_oldval (this w)
                          +:+ JS.substr_from (String.length (_oldval (this w))) n) i))).
        { subst w1. simpl. by rewrite Hi. }
        simpl. rewrite (searchbar_jq_focus _ _ H1).
        unfold searchbar_val. rewrite (searchbar_jq_focus _ _ H1).
        rewrite oldval_jq_focus. reflexivity.
      * intros [|b before] name after Heq Hb Hm; simpl in Heq; simplify_eq; [reflexivity |].
        apply Forall_inv in Hb. congruence.
      * intros Hall. apply Forall_inv in Hall. congruence.
    + destruct IH as (i' & Hi' & Hfirst & Hnone).
      exists i'. split; [exact Hi' | split].
      * intros [|b before] name after Heq Hb Hm; simpl in Heq; simplify_eq; [congruence |].
        apply (Hfirst before name after eq_refl); [| exact Hm].
        by apply Forall_inv_tail in Hb.
      * intros Hall. apply Hnone. by apply Forall_inv_tail in Hall.
Qed.

Lemma completes_iff typed n :
  completes typed n = true
  <-> JS.toLowerCase (JS.substr 0 (String.length typed) n) = JS.toLowerCase typed.
Proof. unfold completes. apply bool_decide_eq_true. Qed.

Lemma completes_false typed n :
  JS.toLowerCase (JS.substr 0 (String.length typed) n) ≠ JS.toLowerCase typed ->
  completes typed n = false.
Proof. intros H. unfold completes. by apply bool_decide_eq_false. Qed.

(** The keyup listener past its early returns. *)
Lemma on_keyup_other which w i :
  _searchbar (this w) = Some i ->
  which ≠ 27 -> which ≠ 13 -> which ≠ 8 -> which ≠ 46 ->
  value i ≠ "" -> value i ≠ _oldval (this w) ->
  on_keyup which w
  = let w2 := autocomplete_loop (_autocomplete (this w))
                (on_this (set_oldval (value i)) (enter OnKeyup w)) in
    on_this (set_oldval (searchbar_val w2)) w2.
Proof.
  intros Hi H27 H13 H8 H46 Hne Hold.
  unfold on_keyup.
  rewrite (proj2 (Z.eqb_neq _ _) H27), (proj2 (Z.eqb_neq _ _) H13),
    (proj2 (Z.eqb_neq _ _) H8), (proj2 (Z.eqb_neq _ _) H46).
  assert (Hv : searchbar_val (enter OnKeyup w) = value i).
  { unfold searchbar_val. simpl. by rewrite Hi. }
  cbv beta zeta. rewrite Hv. simpl _oldval.
  rewrite (bool_decide_eq_false_2 _ Hne), (bool_decide_eq_false_2 _ Hold).
  reflexivity.
Qed.

(** C2.  On a keyup whose key is none of ESC, RETURN, backspace and DEL,
    with a searchbar value that is neither empty nor the stored one, the
    listener goes through the candidate names in order; at the first name
    whose first characters, as many as were typed, equal the typed value
    after lower-casing, the searchbar value becomes the typed value followed
    by the rest of that name, and exactly that rest is selected; when no
    name qualifies the input is left as typed.  The stored value ends up
    equal to the searchbar value. *)
Theorem keyup_autocompletes (which : Z) w i :
  _searchbar (this w) = Some i ->
  which ≠ 27 -> which ≠ 13 -> which ≠ 8 -> which ≠ 46 ->
  value i ≠ "" -> value i ≠ _oldval (this w) ->
  exists i',
    _searchbar (this (on_keyup which w)) = Some i' /\
    _oldval (this (on_keyup which w)) = value i' /\
    (forall before name after,
        _autocomplete (this w) = before ++ name :: after ->
        Forall (fun n => JS.toLowerCase (JS.substr 0 (String.length (value i)) n)
                         ≠ JS.toLowerCase (value i)) before ->
        JS.toLowerCase (JS.substr 0 (String.length (value i)) name)
        = JS.toLowerCase (value i) ->
        value i' = value i +:+ JS.substr_from (String.length (value i)) name /\
        selectionStart i' = String.length (value i) /\
        selectionEnd i' = String.length (value i') /\
        Searchbar.selected i' = JS.substr_from (String.length (value i)) name) /\
    (Forall (fun n => JS.toLowerCase (JS.substr 0 (String.length (value i)) n)
                      ≠ JS.toLowerCase (value i)) (_autocomplete (this w)) ->
     i' = i).
Proof.
  intros Hi H27 H13 H8 H46 Hne Hold.
  rewrite (on_keyup_other which w i) by assumption. cbv zeta.
  set (w1 := on_this (set_oldval (value i)) (enter OnKeyup w)).
  destruct (autocomplete_loop_searchbar (_autocomplete (this w)) w1 i Hi)
    as (i' & Hi' & Hfirst & Hnone).
  change (_oldval (this w1)) with (value i) in Hfirst, Hnone.
  exists i'. simpl. unfold searchbar_val. rewrite Hi'. simpl.
  split; [reflexivity | split; [reflexivity | split]].
  - intros before name after Heq Hb Hm.
    rewrite (Hfirst before name after Heq).
    + rewrite completed_value.
      destruct (completed_selection (value i) name i) as [Hs He].
      rewrite completed_value in He.
      split; [reflexivity | split; [exact Hs | split; [exact He |]]].
      apply completed_selected.
    + eapply Forall_impl; [exact Hb |]. intros n. apply completes_false.
    + by apply completes_iff.
  - intros Hall. apply Hnone.
    eapply Forall_impl; [exact Hall |]. intros n. apply completes_false.
Qed.

End Searchbar_facts.

(** ** The candidate list between focus and blur *)

Section Focus_scope.
Context {Str : JS.Strings} {Num : JS.Numbers} {Tr : I18n}.
Context {R : Type} {Rd : Renderer R}.
Implicit Types w : World R.
















End Focus_scope.

(** ** Classes *)

Lemma elem_of_add1 (c x : string) (l : list string) :
  c ∈ JQ.add1 x l <-> c ∈ l \/ c = x.
Proof.
  unfold JQ.add1. case_bool_decide as Hx.
  - split; [by left | intros [?| ->]; assumption].
  - rewrite elem_of_app, list_elem_of_singleton. tauto.
Qed.

Lemma elem_of_remove1 (c x : string) (l : list string) :
  c ∈ JQ.remove1 x l <-> c ∈ l /\ c ≠ x.
Proof. unfold JQ.remove1. rewrite list_elem_of_filter. tauto. Qed.

Lemma elem_of_toggle1 (c x : string) (l : list string) :
  c ∈ JQ.toggle1 x l <-> (c ≠ x /\ c ∈ l) \/ (c = x /\ x ∉ l).
Proof.
  unfold JQ.toggle1. case_bool_decide as Hx.
  - rewrite elem_of_remove1. split; [tauto |].
    intros [[? ?]|[-> ?]]; [tauto | contradiction].
  - rewrite elem_of_add1. split.
    + intros [H| ->]; [left; split; [intros ->; contradiction | exact H] | by right].
    + intros [[? ?]|[-> ?]]; [by left | by right].
Qed.

Lemma remove1_toggle1 (x : string) (l : list string) :
  JQ.remove1 x (JQ.toggle1 x l) = JQ.remove1 x l.
Proof.
  unfold JQ.toggle1, JQ.remove1, JQ.add1. case_bool_decide as Hx.
  - rewrite list_filter_filter. apply list_filter_iff. tauto.
  - rewrite filter_app, filter_cons, filter_nil.
    destruct (decide (x ≠ x)); [contradiction | by rewrite app_nil_r].
Qed.

Lemma classList_toggleClass_mute (e : Element) :
  DOM.classList (JQ.toggleClass "mute" e) = JQ.toggle1 "mute" (DOM.classList e).
Proof. by destruct e. Qed.

Lemma classList_removeClass_hidden (e : Element) :
  DOM.classList (JQ.removeClass "hidden" e) = JQ.remove1 "hidden" (DOM.classList e).
Proof. by destruct e. Qed.

Lemma classList_addClass_hidden (e : Element) :
  DOM.classList (JQ.addClass (Some "hidden") e) = JQ.add1 "hidden" (DOM.classList e).
Proof. by destruct e. Qed.

Lemma textContent_text (s : string) (e : Element) :
  DOM.textContent (JQ.text s e) = s.
Proof.
  destruct e as [t c a k]. simpl.
  destruct (decide (s = "")) as [-> | _]; simpl; [reflexivity |].
  apply append_empty_r.
Qed.

Section Methods.
Context {Str : JS.Strings} {Num : JS.Numbers} {Tr : I18n}.
Context {R : Type} {Rd : Renderer R}.
Implicit Types w : World R.


(** C8.  [updateWordCount(0)] is [hideWordCount()]: every file-info element
    ends up with empty text.  For any other count the text of every
    file-info element becomes [trans('gui.words', localiseNumber(words))]. *)
Theorem updateWordCount_sets_text (words : Z) w :
  updateWordCount 0 w = hideWordCount w /\
  Forall (fun e => DOM.textContent e = "") (_fileInfo (this (hideWordCount w).2)) /\
  Forall (fun e => DOM.textContent e
                   = if decide (words = 0) then ""
                     else trans (Some "gui.words") [localiseNumber words])
         (_fileInfo (this (updateWordCount words w).2)) /\
  length (_fileInfo (this (updateWordCount words w).2))
  = length (_fileInfo (this w)).
Proof.
  split; [reflexivity | split; [| split]].
  - simpl. apply Forall_fmap, Forall_true. intros e. apply textContent_text.
  - unfold updateWordCount. destruct (decide (words = 0)) as [-> | Hw].
    + simpl. apply Forall_fmap, Forall_true. intros e. apply textContent_text.
    + rewrite (proj2 (Z.eqb_neq _ _) Hw). simpl.
      apply Forall_fmap, Forall_true. intros e. apply textContent_text.
  - unfold updateWordCount. destruct (words =? 0); simpl; apply length_fmap.
Qed.

(** C10.  [toggleDistractionFree] returns [this] and changes, of the whole
    toolbar, only whether [#toolbar] carries the class [mute]: that is
    flipped, every other class name stays where it was, and calling the
    method twice gives back the original presence or absence of every
    class. *)
Theorem toggleDistractionFree_twice w :
  (toggleDistractionFree w).1 = RetThis /\
  (forall c, JQ.hasClass c (_div (this (toggleDistractionFree w).2))
             = if decide (c = "mute") then negb (JQ.hasClass c (_div (this w)))
               else JQ.hasClass c (_div (this w))) /\
  JQ.remove1 "mute" (DOM.classList (_div (this (toggleDistractionFree w).2)))
  = JQ.remove1 "mute" (DOM.classList (_div (this w))) /\
  (toggleDistractionFree w).2
  = on_this (set_div (JQ.with_classes (JQ.toggle1 "mute"))) w /\
  (forall c,
      JQ.hasClass c
        (_div (this (toggleDistractionFree (toggleDistractionFree w).2).2))
      = JQ.hasClass c (_div (this w))).
Proof.
  assert (Hone : forall e c,
             JQ.hasClass c (JQ.toggleClass "mute" e)
             = if decide (c = "mute") then negb (JQ.hasClass c e)
               else JQ.hasClass c e).
  { intros e c. unfold JQ.hasClass. rewrite classList_toggleClass_mute.
    destruct (decide (c = "mute")) as [-> | Hc].
    - rewrite <- bool_decide_not. apply bool_decide_ext.
      rewrite elem_of_toggle1. tauto.
    - apply bool_decide_ext. rewrite elem_of_toggle1. tauto. }
  split; [reflexivity | split; [| split; [| split]]].
  - intros c. apply Hone.
  - simpl. rewrite classList_toggleClass_mute. apply remove1_toggle1.
  - reflexivity.
  - intros c. simpl. rewrite !Hone.
    destruct (decide (c = "mute")); [apply negb_involutive | reflexivity].
Qed.

End Methods.

(** ** Trees *)

(** Induction on elements, with the hypothesis for every child element. *)
Lemma Element_induction (P : Element -> Prop) :
  (forall t c a kids,
      Forall (fun k => match k with inl e => P e | inr _ => True end) kids ->
      P (Elem t c a kids)) ->
  forall e, P e.
Proof.
  intros H. fix IH 1. intros [t c a kids]. apply H.
  induction kids as [|k kids IHk]; constructor; [| exact IHk].
  destruct k as [e|s]; [apply IH | exact I].
Qed.

Lemma descendants_with_classes f (e : Element) :
  DOM.descendants (JQ.with_classes f e) = DOM.descendants e.
Proof. by destruct e. Qed.

Lemma descendants_attr_set name v (e : Element) :
  DOM.descendants (JQ.attr_set name v e) = DOM.descendants e.
Proof. by destruct v, e. Qed.

Lemma classList_attr_set name v (e : Element) :
  DOM.classList (JQ.attr_set name v e) = DOM.classList e.
Proof. by destruct v, e. Qed.

Lemma classList_find_class_attr_set c name v (e : Element) :
  DOM.classList (JQ.find_class_attr_set c name v e) = DOM.classList e.
Proof. by destruct e. Qed.

Lemma attr_attr_set name v (e : Element) :
  JQ.attr name (JQ.attr_set name (Some v) e) = Some v.
Proof. destruct e. unfold JQ.attr. simpl. apply lookup_insert_eq. Qed.

Lemma hasClass_attr_set_if c name v c' (e : Element) :
  JQ.hasClass c' (attr_set_if c name v e) = JQ.hasClass c' e.
Proof.
  unfold attr_set_if, JQ.hasClass.
  destruct (bool_decide (c ∈ DOM.classList e));
    by rewrite ?classList_attr_set, classList_find_class_attr_set.
Qed.

Lemma descendants_Elem t cl a kids :
  DOM.descendants (Elem t cl a kids)
  = flat_map (fun k => match k with
                       | inl e' => e' :: DOM.descendants e'
                       | inr _ => []
                       end) kids.
Proof. reflexivity. Qed.

Lemma find_class_attr_set_Elem c name v t cl a kids :
  JQ.find_class_attr_set c name v (Elem t cl a kids)
  = Elem t cl a
      (map (fun k => match k with
                     | inl e' => inl (attr_set_if c name v e')
                     | inr s => inr s
                     end) kids).
Proof. reflexivity. Qed.

Lemma descendants_attr_set_if c name v (e : Element) :
  DOM.descendants (attr_set_if c name v e)
  = DOM.descendants (JQ.find_class_attr_set c name v e).
Proof.
  unfold attr_set_if. destruct (JQ.hasClass c e); [| reflexivity].
  apply descendants_attr_set.
Qed.

Lemma descendants_find_class_attr_set c name v (e : Element) :
  DOM.descendants (JQ.find_class_attr_set c name v e)
  = attr_set_if c name v <$> DOM.descendants e.
Proof.
  induction e as [t cl a kids IH] using Element_induction.
  rewrite find_class_attr_set_Elem.
  rewrite !descendants_Elem.
  induction IH as [|k kids Hk _ IHkids]; [reflexivity |].
  rewrite map_cons. cbn [flat_map]. rewrite IHkids, fmap_app.
  f_equal. destruct k as [e'|s]; [| reflexivity].
  by rewrite fmap_cons, descendants_attr_set_if, Hk.
Qed.

Lemma find_class_find_class_attr_set c name v (e : Element) :
  JQ.attr name <$> JQ.find_class c (JQ.find_class_attr_set c name v e)
  = (fun _ => Some v) <$> JQ.find_class c e.
Proof.
  unfold JQ.find_class. rewrite descendants_find_class_attr_set.
  induction (DOM.descendants e) as [|d ds IH]; [reflexivity |].
  rewrite fmap_cons, !filter_cons, hasClass_attr_set_if.
  destruct (decide (JQ.hasClass c d = true)) as [Hd|Hd]; [| exact IH].
  rewrite !fmap_cons, IH. f_equal.
  unfold attr_set_if. rewrite Hd. apply attr_attr_set.
Qed.

(** ** The progress indicator *)

Section Progress.
Context {Str : JS.Strings} {Num : JS.Numbers} {Tr : I18n}.
Context {R : Type} {Rd : Renderer R}.
Implicit Types w : World R.

Lemma hasClass_removeClass_hidden (e : Element) :
  JQ.hasClass "hidden" (JQ.removeClass "hidden" e) = false.
Proof.
  unfold JQ.hasClass. rewrite classList_removeClass_hidden.
  apply bool_decide_eq_false. rewrite elem_of_remove1. tauto.
Qed.

Lemma hasClass_addClass_hidden (e : Element) :
  JQ.hasClass "hidden" (JQ.addClass (Some "hidden") e) = true.
Proof.
  unfold JQ.hasClass. rewrite classList_addClass_hidden.
  apply bool_decide_eq_true. rewrite elem_of_add1. by right.
Qed.

Lemma searchProgress_on_hidden (item itemCnt : JS.number) w :
  JQ.hasClass "hidden" (_searchProgress (this w)) = true ->
  (searchProgress item itemCnt w).2
  = on_this (set_searchProgress (JQ.removeClass "hidden")) w.
Proof. intros H. unfold searchProgress. by rewrite H. Qed.

Lemma searchProgress_on_visible (item itemCnt : JS.number) w :
  JQ.hasClass "hidden" (_searchProgress (this w)) = false ->
  (searchProgress item itemCnt w).2
  = on_this (set_searchProgress
               (JQ.find_class_attr_set "indicator-value" "d" (arc item itemCnt))) w.
Proof. intros H. unfold searchProgress. by rewrite H. Qed.

(** C9.  On a hidden indicator [searchProgress] only takes the class
    [hidden] away: the [d] attribute of the arc stays what it was.  On a
    visible indicator it leaves the classes alone and writes the arc.
    [endSearch] puts the class [hidden] back. *)
Theorem searchProgress_hidden_then_visible (item itemCnt : JS.number) w :
  (if JQ.hasClass "hidden" (_searchProgress (this w)) then
     (searchProgress item itemCnt w).2
     = on_this (set_searchProgress (JQ.with_classes (JQ.remove1 "hidden"))) w /\
     JQ.hasClass "hidden"
       (_searchProgress (this (searchProgress item itemCnt w).2)) = false /\
     JQ.attr "d" <$> JQ.find_class "indicator-value"
                       (_searchProgress (this (searchProgress item itemCnt w).2))
     = JQ.attr "d" <$> JQ.find_class "indicator-value" (_searchProgress (this w))
   else
     DOM.classList (_searchProgress (this (searchProgress item itemCnt w).2))
     = DOM.classList (_searchProgress (this w)) /\
     JQ.attr "d" <$> JQ.find_class "indicator-value"
                       (_searchProgress (this (searchProgress item itemCnt w).2))
     = (fun _ => Some (arc item itemCnt))
         <$> JQ.find_class "indicator-value" (_searchProgress (this w))) /\
  JQ.hasClass "hidden" (_searchProgress (this (endSearch w).2)) = true.
Proof.
  split; [| apply hasClass_addClass_hidden].
  destruct (JQ.hasClass "hidden" (_searchProgress (this w))) eqn:Hh.
  - rewrite (searchProgress_on_hidden _ _ _ Hh). simpl. split; [| split].
    + by destruct (_searchProgress (this w)).
    + apply hasClass_removeClass_hidden.
    + unfold JQ.find_class, JQ.removeClass.
      by rewrite descendants_with_classes.
  - rewrite (searchProgress_on_visible _ _ _ Hh). simpl.
    split; [apply classList_find_class_attr_set |].
    apply find_class_find_class_attr_set.
Qed.

(** C3 (as amended).  A call of [searchProgress(item, itemCnt)] made while
    the indicator does not carry the class [hidden] writes the arc of the
    fraction [item / itemCnt] into every [.indicator-value] path: the
    large-arc flag is 1 when the fraction is greater than 0.5 and 0 when not,
    and the end point is the cosine and the sine of [2 * PI] times the
    fraction. *)
Theorem searchProgress_draws_arc_when_visible (item itemCnt : JS.number) w :
  JQ.hasClass "hidden" (_searchProgress (this w)) = false ->
  exists large : string,
    (JS.gt (JS.div item itemCnt) JS.lit_0_5 = true /\ large = "1"
     \/ JS.gt (JS.div item itemCnt) JS.lit_0_5 = false /\ large = "0") /\
    JQ.attr "d" <$> JQ.find_class "indicator-value"
                      (_searchProgress (this (searchProgress item itemCnt w).2))
    = (fun _ => Some
         ("M 1 0 A 1 1 0 " +:+ large +:+ " 1 "
            +:+ JS.to_string
                  (JS.cos (JS.mul (JS.mul JS.lit_2 JS.PI) (JS.div item itemCnt)))
            +:+ " "
            +:+ JS.to_string
                  (JS.sin (JS.mul (JS.mul JS.lit_2 JS.PI) (JS.div item itemCnt)))
            +:+ " L 0 0"))
        <$> JQ.find_class "indicator-value" (_searchProgress (this w)).
Proof.
  intros Hv. rewrite (searchProgress_on_visible _ _ _ Hv). simpl.
  exists (if JS.gt (JS.div item itemCnt) JS.lit_0_5 then "1" else "0").
  split; [| apply find_class_find_class_attr_set].
  destruct (JS.gt (JS.div item itemCnt) JS.lit_0_5); [by left | by right].
Qed.

End Progress.

(** ** _build *)

Lemma elem_of_fold_add1 (names l : list string) (c : string) :
  c ∈ fold_left (fun l c => JQ.add1 c l) names l <-> c ∈ l \/ c ∈ names.
Proof.
  revert l. induction names as [|n names IH]; intros l; simpl.
  - rewrite elem_of_nil. tauto.
  - rewrite IH, elem_of_add1, elem_of_cons. tauto.
Qed.

Section Build.
Context {Tr : I18n}.

Lemma build_append (tpl : list Descriptor) t c a kids :
  _build tpl (Elem t c a kids)
  = Elem t c a (kids ++ ((fun elem => Child (build_child elem)) <$> tpl)).
Proof.
  unfold _build. revert kids.
  induction tpl as [|elem tpl IH]; intros kids; simpl.
  - by rewrite app_nil_r.
  - rewrite IH. by rewrite <- app_assoc.
Qed.

Lemma build_child_button cl cm co ti :
  build_child {| role := "button"; class := cl; command := cm;
                 content := co; title := ti |}
  = Elem "div" [] ∅ []
      |> JQ.addClass (Some "button") |> JQ.addClass cl
      |> JQ.attr_set "data-command" cm |> JQ.attr_set "data-content" co
      |> JQ.attr_set "title" (Some (trans ti [])).
Proof. reflexivity. Qed.

Lemma build_child_searchbar cl cm co ti :
  build_child {| role := "searchbar"; class := cl; command := cm;
                 content := co; title := ti |}
  = Elem "div" ["searchbar"] ∅ Markup.searchbar.
Proof. reflexivity. Qed.

Lemma build_child_pomodoro cl cm co ti :
  build_child {| role := "pomodoro"; class := cl; command := cm;
                 content := co; title := ti |}
  = Elem "div" ["pomodoro"; "button"] {["data-command" := "pomodoro"]}
      Markup.pomodoro.
Proof. reflexivity. Qed.

Lemma tagName_build_child elem : DOM.tagName (build_child elem) = "div".
Proof.
  unfold build_child.
  assert (Ha : forall v e, DOM.tagName (JQ.addClass v e) = DOM.tagName e)
    by (by intros [?|] []).
  assert (Hs : forall n v e, DOM.tagName (JQ.attr_set n v e) = DOM.tagName e)
    by (by intros ? [?|] []).
  assert (Hh : forall p e, DOM.tagName (JQ.html p e) = DOM.tagName e)
    by (by intros ? []).
  repeat case_decide; by rewrite ?Hh, ?Hs, ?Ha.
Qed.

(** C4.  [_build] leaves [#toolbar] as it was but for its children, to
    which it adds one [div] per descriptor, in the order of the template.
    For a [button] the [div] has every class name of the descriptor's
    [class], the descriptor's command as [data-command], its content as
    [data-content] and the translated title as [title]; for a [searchbar]
    its children are a text input and an [.end-search] element; for a
    [pomodoro] it has the class [button], [data-command] set to
    ['pomodoro'], and an [svg] as its only child. *)
Theorem build_one_child_per_descriptor (tpl : list Descriptor) t c a kids :
  _build tpl (Elem t c a kids)
  = Elem t c a (kids ++ ((fun elem => Child (build_child elem)) <$> tpl)) /\
  forall elem,
    DOM.tagName (build_child elem) = "div" /\
    (role elem = "button" ->
     (forall cls c', class elem = Some cls -> c' ∈ DOM.class_names cls ->
                     JQ.hasClass c' (build_child elem) = true) /\
     JQ.attr "data-command" (build_child elem) = command elem /\
     JQ.attr "data-content" (build_child elem) = content elem /\
     JQ.attr "title" (build_child elem) = Some (trans (title elem) [])) /\
    (role elem = "searchbar" ->
     exists input end_search,
       DOM.childNodes (build_child elem) = [Child input; Child end_search] /\
       DOM.tagName input = "input" /\ JQ.attr "type" input = Some "text" /\
       JQ.hasClass "end-search" end_search = true) /\
    (role elem = "pomodoro" ->
     JQ.hasClass "button" (build_child elem) = true /\
     JQ.attr "data-command" (build_child elem) = Some "pomodoro" /\
     exists svg, DOM.childNodes (build_child elem) = [Child svg]
                 /\ DOM.tagName svg = "svg").
Proof.
  split; [apply build_append |].
  intros elem. split; [apply tagName_build_child |].
  destruct elem as [ro cl cm co ti]. simpl.
  split; [| split]; intros ->.
  - rewrite build_child_button.
    assert (Hbase : JQ.addClass (Some "button") (Elem "div" [] ∅ [])
                    = Elem "div" ["button"] ∅ []) by reflexivity.
    rewrite Hbase. clear Hbase.
    split; [| split; [| split]].
    + intros cls c' [= ->] Hc. simpl. unfold JQ.hasClass.
      apply bool_decide_eq_true.
      destruct cm, co; simpl; apply elem_of_fold_add1; by right.
    + destruct cl, cm, co; unfold JQ.attr; simpl; by simplify_map_eq.
    + destruct cl, cm, co; unfold JQ.attr; simpl; by simplify_map_eq.
    + destruct cl, cm, co; unfold JQ.attr; simpl; by simplify_map_eq.
  - rewrite build_child_searchbar. simpl. do 2 eexists.
    split; [reflexivity | by repeat split].
  - rewrite build_child_pomodoro. simpl.
    split; [reflexivity | split; [reflexivity |]].
    eexists. split; reflexivity.
Qed.

End Build.

(** ** The theorems at the sample toolbar *)

(** C2, witness: "no" typed over the sample directory completes to the first
    file whose name starts with it, whatever the case, and "tes.md" is
    selected. *)
Lemma keyup_autocompletes_witness :
  _searchbar (this Sample.typing) = Some Sample.typed /\
  value Sample.typed ≠ "" /\ value Sample.typed ≠ _oldval (this Sample.typing) /\
  exists i',
    _searchbar (this (on_keyup 79 Sample.typing)) = Some i' /\
    value i' = "notes.md" /\ selectionStart i' = 2%nat /\
    selectionEnd i' = 8%nat /\ Searchbar.selected i' = "tes.md".
Proof.
  split; [reflexivity | split; [discriminate | split; [discriminate |]]].
  destruct (keyup_autocompletes 79 Sample.typing Sample.typed eq_refl
              ltac:(lia) ltac:(lia) ltac:(lia) ltac:(lia)
              ltac:(discriminate) ltac:(discriminate))
    as (i' & Hi' & _ & Hfirst & _).
  destruct (Hfirst [] "Notes.md" ["notebook.md"; "Readme.md"] eq_refl
              ltac:(constructor) eq_refl) as (Hv & Hs & He & Hsel).
  exists i'. rewrite He, Hv. repeat split; assumption.
Defined.

(** C3, witness: three items of four on the shown indicator. *)
Lemma searchProgress_draws_arc_when_visible_witness :
  JQ.hasClass "hidden" (_searchProgress (this Sample.searching_world)) = false /\
  JQ.attr "d" <$> JQ.find_class "indicator-value"
    (_searchProgress
       (this (searchProgress (Num := Sample.numbers) (Sample.Int 3) (Sample.Int 4) Sample.searching_world).2))
  = [Some "M 1 0 A 1 1 0 1 1 cos(((2*pi)*(3/4))) sin(((2*pi)*(3/4))) L 0 0"].
Proof.
  split; [reflexivity |].
  destruct (searchProgress_draws_arc_when_visible (Num := Sample.numbers)
              (Sample.Int 3) (Sample.Int 4) Sample.searching_world eq_refl)
    as (large & [[_ ->] | [Hg _]] & H); [exact H | discriminate Hg].
Defined.

(** C3 as stated fails: the first call finds the indicator hidden and draws
    nothing, the [d] attribute stays empty. *)
Lemma searchProgress_hidden_draws_no_arc :
  JQ.hasClass "hidden" (_searchProgress (this Sample.world)) = true /\
  JQ.attr "d" <$> JQ.find_class "indicator-value"
    (_searchProgress
       (this (searchProgress (Num := Sample.numbers) (Sample.Int 3) (Sample.Int 4) Sample.world).2))
  = [Some ""] /\
  "" ≠ arc (Num := Sample.numbers) (Sample.Int 3) (Sample.Int 4).
Proof. split; [reflexivity | split; [reflexivity | discriminate]]. Qed.

(** C4, witness: the sample template on the empty [#toolbar]. *)
Lemma build_one_child_per_descriptor_witness :
  role Sample.file_new = "button" /\
  DOM.classList <$> DOM.elements (DOM.childNodes (_build Sample.tpl Sample.toolbar_div))
  = [["button"; "file-new"]; ["searchbar"]; ["file-info"]; ["pomodoro"; "button"]] /\
  JQ.hasClass "file-new" (build_child Sample.file_new) = true /\
  JQ.attr "data-command" (build_child Sample.file_new) = Some "file-new" /\
  JQ.attr "data-content" (build_child Sample.file_new) = Some "{}" /\
  JQ.attr "title" (build_child Sample.file_new) = Some "toolbar.file_new".
Proof.
  split; [reflexivity |].
  destruct (build_one_child_per_descriptor Sample.tpl "div" []
              (Markup.attrs [("id", "toolbar")]) []) as [Hb Hc].
  split; [unfold Sample.toolbar_div; by rewrite Hb |].
  destruct (Hc Sample.file_new) as (_ & Hbutton & _).
  destruct (Hbutton eq_refl) as (Hcl & Hcm & Hco & Hti).
  split; [apply (Hcl "file-new" "file-new" eq_refl); by apply list_elem_of_singleton |].
  repeat split; assumption.
Defined.


(** * Further properties *)

(** ** More on strings *)

Lemma substr_from_short (n : nat) (s : string) :
  (String.length s <= n)%nat -> JS.substr_from n s = "".
Proof.
  revert s. induction n as [|n IH]; intros [|c s] H; simpl in *.
  - reflexivity.
  - lia.
  - reflexivity.
  - apply IH. lia.
Qed.

Lemma length_substr_from (n : nat) (s : string) :
  String.length (JS.substr_from n s) = (String.length s - n)%nat.
Proof.
  revert s. induction n as [|n IH]; intros [|c s]; simpl.
  - reflexivity.
  - reflexivity.
  - reflexivity.
  - apply IH.
Qed.

Lemma substr_to_from (n : nat) (s : string) :
  JS.substr_to n s +:+ JS.substr_from n s = s.
Proof.
  revert s. induction n as [|n IH]; intros [|c s]; simpl; try reflexivity.
  rewrite append_cons. by rewrite IH.
Qed.

Lemma selected_select (i : Input) :
  Searchbar.selected (Searchbar.select i) = value i.
Proof.
  unfold Searchbar.selected, JS.substr. simpl.
  rewrite Nat.sub_0_r. apply substr_to_all.
Qed.

(** ** The keyup listener beside the completion *)

Section Keyup.
Context {Str : JS.Strings} {Num : JS.Numbers} {Tr : I18n}.
Context {R : Type} {Rd : Renderer R}.
Implicit Types (w : World R) (i : Input).

Lemma this_jq_blur w i :
  _searchbar (this w) = Some i ->
  this (jq_blur w)
  = set_oldval "" (set_autocomplete []
      (set_searchbar (Searchbar.set_focused false) (this w))).
Proof. intros Hi. unfold jq_blur. by rewrite Hi. Qed.

Lemma renderer_jq_blur w : renderer (jq_blur w) = renderer w.
Proof. unfold jq_blur. by destruct (_searchbar (this w)). Qed.

Lemma fired_jq_blur w i :
  _searchbar (this w) = Some i -> fired (jq_blur w) = fired w ++ [OnBlur].
Proof. intros Hi. unfold jq_blur. by rewrite Hi. Qed.

(** The listener leaves at once on backspace and DEL, on an empty value and
    on a value that is the stored one. *)
Lemma on_keyup_returns_early which w :
  which ≠ 27 -> which ≠ 13 ->
  which = 8 \/ which = 46 \/ searchbar_val w = ""
  \/ searchbar_val w = _oldval (this w) ->
  on_keyup which w = enter OnKeyup w.
Proof.
  intros H27 H13 H. unfold on_keyup.
  rewrite (proj2 (Z.eqb_neq _ _) H27), (proj2 (Z.eqb_neq _ _) H13).
  destruct H as [-> | [-> | H]]; [reflexivity | reflexivity |].
  destruct ((which =? 8) || (which =? 46)); [reflexivity |].
  change (searchbar_val (enter OnKeyup w)) with (searchbar_val w).
  change (_oldval (this (enter OnKeyup w))) with (_oldval (this w)).
  destruct H as [H | H].
  - by rewrite (bool_decide_eq_true_2 _ H).
  - rewrite (bool_decide_eq_true_2 _ H). by rewrite orb_true_r.
Qed.

(** Once the listener has run for an ordinary key, the searchbar value is
    empty or is the stored value. *)
Lemma on_keyup_settles which w :
  which ≠ 27 -> which ≠ 13 -> which ≠ 8 -> which ≠ 46 ->
  searchbar_val (on_keyup which w) = ""
  \/ searchbar_val (on_keyup which w) = _oldval (this (on_keyup which w)).
Proof.
  intros H27 H13 H8 H46. unfold on_keyup.
  rewrite (proj2 (Z.eqb_neq _ _) H27), (proj2 (Z.eqb_neq _ _) H13),
    (proj2 (Z.eqb_neq _ _) H8), (proj2 (Z.eqb_neq _ _) H46).
  cbv beta zeta. simpl orb. cbv iota.
  change (searchbar_val (enter OnKeyup w)) with (searchbar_val w).
  change (_oldval (this (enter OnKeyup w))) with (_oldval (this w)).
  destruct (bool_decide (searchbar_val w = "")) eqn:He.
  { left. by apply bool_decide_eq_true in He. }
  destruct (bool_decide (searchbar_val w = _oldval (this w))) eqn:Ho.
  { right. by apply bool_decide_eq_true in Ho. }
  right. reflexivity.
Qed.

(** X1.  ESC in the searchbar and a click on the end-search element do the
    same to the toolbar and to the renderer: the input loses the focus and
    its text, the blur listener empties the candidate list and the stored
    value, and the renderer receives [exitSearch()]. *)
Theorem escape_ends_search w i :
  _searchbar (this w) = Some i ->
  this (on_keyup 27 w) = this (on_end_search_click w) /\
  renderer (on_keyup 27 w) = exitSearch (renderer w) /\
  renderer (on_end_search_click w) = exitSearch (renderer w) /\
  (exists i', _searchbar (this (on_keyup 27 w)) = Some i' /\
              value i' = "" /\ focused i' = false /\
              input_attributes i' = input_attributes i) /\
  _autocomplete (this (on_keyup 27 w)) = [] /\
  _oldval (this (on_keyup 27 w)) = "" /\
  last_focus_or_blur (fired (on_keyup 27 w)) = Some OnBlur.
Proof.
  intros Hi.
  assert (He : _searchbar (this (enter OnKeyup w)) = Some i) by exact Hi.
  assert (Hc : _searchbar (this (enter OnEndSearchClick w)) = Some i) by exact Hi.
  unfold on_keyup, on_end_search_click. simpl Z.eqb. cbv iota beta zeta.
  simpl renderer. rewrite !renderer_jq_blur.
  simpl this. rewrite (this_jq_blur _ _ He), (this_jq_blur _ _ Hc).
  split; [reflexivity | split; [reflexivity | split; [reflexivity |]]].
  simpl. rewrite Hi. simpl.
  split; [| split; [reflexivity | split; [reflexivity |]]].
  - eexists. split; [reflexivity |]. rewrite value_val_set.
    split; [reflexivity |]. unfold Searchbar.val_set.
    by destruct (decide _).
  - rewrite (fired_jq_blur _ _ He). simpl.
    unfold last_focus_or_blur. rewrite !filter_app, !filter_cons, !filter_nil.
    destruct (decide (OnKeyup = OnFocus ∨ OnKeyup = OnBlur)) as [[?|?]|_];
      [discriminate | discriminate |].
    destruct (decide (OnBlur = OnFocus ∨ OnBlur = OnBlur)) as [_|Hn];
      [| exfalso; apply Hn; by right].
    rewrite app_nil_r. apply last_snoc.
Qed.

(** X2.  RETURN in the searchbar hands the current value to
    [renderer.beginSearch], empty or not, and selects all of it; the value,
    the candidate list and the stored value stay as they are. *)
Theorem return_begins_search w i :
  _searchbar (this w) = Some i ->
  renderer (on_keyup 13 w) = beginSearch (value i) (renderer w) /\
  (exists i', _searchbar (this (on_keyup 13 w)) = Some i' /\
              value i' = value i /\ Searchbar.selected i' = value i /\
              focused i' = focused i) /\
  _autocomplete (this (on_keyup 13 w)) = _autocomplete (this w) /\
  _oldval (this (on_keyup 13 w)) = _oldval (this w).
Proof.
  intros Hi. unfold on_keyup. simpl Z.eqb. cbv iota beta zeta.
  unfold searchbar_val. simpl. rewrite Hi. simpl.
  split; [reflexivity | split; [| by split]].
  eexists. split; [reflexivity |].
  split; [reflexivity | split; [apply selected_select | reflexivity]].
Qed.

(** X3.  On backspace and DEL, on an empty searchbar and on a value equal
    to the stored one, the keyup listener changes neither the toolbar nor
    the renderer: no completion, and the stored value is not refreshed. *)
Theorem keyup_without_change_is_ignored (which : Z) w :
  which ≠ 27 -> which ≠ 13 ->
  which = 8 \/ which = 46 \/ searchbar_val w = ""
  \/ searchbar_val w = _oldval (this w) ->
  this (on_keyup which w) = this w /\ renderer (on_keyup which w) = renderer w.
Proof.
  intros H27 H13 H. by rewrite (on_keyup_returns_early which w H27 H13 H).
Qed.

(** X4.  A second keyup with no edit in between does nothing more: after
    the listener ran for a key other than ESC, RETURN, backspace and DEL,
    running it again for any key but ESC and RETURN leaves the toolbar and
    the renderer as the first run left them. *)
Theorem keyup_again_changes_nothing (which which' : Z) w :
  which ≠ 27 -> which ≠ 13 -> which ≠ 8 -> which ≠ 46 ->
  which' ≠ 27 -> which' ≠ 13 ->
  this (on_keyup which' (on_keyup which w)) = this (on_keyup which w) /\
  renderer (on_keyup which' (on_keyup which w)) = renderer (on_keyup which w).
Proof.
  intros H27 H13 H8 H46 H27' H13'.
  rewrite (on_keyup_returns_early which' (on_keyup which w) H27' H13');
    [by split |].
  right. right. by apply on_keyup_settles.
Qed.

(** X5.  When the first completing name is no longer than what was typed,
    nothing is appended: the value stays as typed and the selection is the
    empty range at its end. *)
Theorem keyup_on_fully_typed_name (which : Z) w i before name after :
  _searchbar (this w) = Some i ->
  which ≠ 27 -> which ≠ 13 -> which ≠ 8 -> which ≠ 46 ->
  value i ≠ "" -> value i ≠ _oldval (this w) ->
  _autocomplete (this w) = before ++ name :: after ->
  Forall (fun n => JS.toLowerCase (JS.substr 0 (String.length (value i)) n)
                   ≠ JS.toLowerCase (value i)) before ->
  JS.toLowerCase (JS.substr 0 (String.length (value i)) name)
  = JS.toLowerCase (value i) ->
  (String.length name <= String.length (value i))%nat ->
  exists i',
    _searchbar (this (on_keyup which w)) = Some i' /\
    value i' = value i /\
    selectionStart i' = String.length (value i) /\
    selectionEnd i' = String.length (value i) /\
    Searchbar.selected i' = "".
Proof.
  intros Hi H27 H13 H8 H46 Hne Hold Heq Hb Hm Hlen.
  rewrite (on_keyup_other which w i) by assumption. cbv zeta.
  set (w1 := on_this (set_oldval (value i)) (enter OnKeyup w)).
  destruct (autocomplete_loop_searchbar (_autocomplete (this w)) w1 i Hi)
    as (i' & Hi' & Hfirst & _).
  change (_oldval (this w1)) with (value i) in Hfirst.
  exists i'. simpl. split; [exact Hi' |].
  rewrite (Hfirst before name after Heq).
  - destruct (completed_selection (value i) name i) as [Hs He].
    rewrite Hs, He, completed_selected, completed_value.
    rewrite (substr_from_short _ _ Hlen), append_empty_r. by repeat split.
  - eapply Forall_impl; [exact Hb |]. intros n. apply completes_false.
  - by apply completes_iff.
Qed.

(** X6.  With a lower-casing that distributes over concatenation, the
    completed value is the completing name up to case: it lower-cases to the
    lower-cased name, and when the name is at least as long as what was
    typed it has the name's length. *)
Theorem keyup_completes_to_the_name (which : Z) w i before name after :
  (forall a b, JS.toLowerCase (a +:+ b) = JS.toLowerCase a +:+ JS.toLowerCase b) ->
  _searchbar (this w) = Some i ->
  which ≠ 27 -> which ≠ 13 -> which ≠ 8 -> which ≠ 46 ->
  value i ≠ "" -> value i ≠ _oldval (this w) ->
  _autocomplete (this w) = before ++ name :: after ->
  Forall (fun n => JS.toLowerCase (JS.substr 0 (String.length (value i)) n)
                   ≠ JS.toLowerCase (value i)) before ->
  JS.toLowerCase (JS.substr 0 (String.length (value i)) name)
  = JS.toLowerCase (value i) ->
  exists i',
    _searchbar (this (on_keyup which w)) = Some i' /\
    JS.toLowerCase (value i') = JS.toLowerCase name /\
    ((String.length (value i) <= String.length name)%nat ->
     String.length (value i') = String.length name).
Proof.
  intros Hhom Hi H27 H13 H8 H46 Hne Hold Heq Hb Hm.
  rewrite (on_keyup_other which w i) by assumption. cbv zeta.
  set (w1 := on_this (set_oldval (value i)) (enter OnKeyup w)).
  destruct (autocomplete_loop_searchbar (_autocomplete (this w)) w1 i Hi)
    as (i' & Hi' & Hfirst & _).
  change (_oldval (this w1)) with (value i) in Hfirst.
  exists i'. simpl. split; [exact Hi' |].
  rewrite (Hfirst before name after Heq).
  - rewrite completed_value. split.
    + rewrite Hhom, <- Hm, <- Hhom. unfold JS.substr. simpl.
      by rewrite substr_to_from.
    + intros Hlen. rewrite length_append, length_substr_from. lia.
  - eapply Forall_impl; [exact Hb |]. intros n. apply completes_false.
  - by apply completes_iff.
Qed.

End Keyup.

(** ** What the listeners and the methods leave alone *)

Section Frames.
Context {Str : JS.Strings} {Num : JS.Numbers} {Tr : I18n}.
Context {R : Type} {Rd : Renderer R}.
Implicit Types (w : World R) (i : Input).

Lemma same_outside_refl w : same_outside_searchbar w w.
Proof. by repeat split. Qed.

Lemma same_outside_trans w1 w2 w3 :
  same_outside_searchbar w1 w2 -> same_outside_searchbar w2 w3 ->
  same_outside_searchbar w1 w3.
Proof.
  unfold same_outside_searchbar. intros (-> & -> & ->) (-> & -> & ->).
  by repeat split.
Qed.

Lemma same_outside_on_focus w : same_outside_searchbar w (on_focus w).
Proof. unfold same_outside_searchbar. rewrite this_on_focus. by repeat split. Qed.

Lemma same_outside_jq_focus w : same_outside_searchbar w (jq_focus w).
Proof.
  unfold jq_focus. destruct (_searchbar (this w)); [| apply same_outside_refl].
  eapply same_outside_trans; [| apply same_outside_on_focus]. by repeat split.
Qed.

Lemma same_outside_jq_blur w : same_outside_searchbar w (jq_blur w).
Proof. unfold jq_blur. destruct (_searchbar (this w)); by repeat split. Qed.

Lemma same_outside_autocomplete_loop names w :
  same_outside_searchbar w (autocomplete_loop names w).
Proof.
  induction names as [|n rest IH]; simpl; [apply same_outside_refl |].
  destruct (completes _ n); [| exact IH].
  eapply same_outside_trans; [| by repeat split].
  eapply same_outside_trans; [| apply same_outside_jq_focus]. by repeat split.
Qed.

Lemma same_outside_on_keyup which w : same_outside_searchbar w (on_keyup which w).
Proof.
  unfold on_keyup. destruct (which =? 27).
  { eapply same_outside_trans; [| by repeat split].
    eapply same_outside_trans; [| by repeat split].
    eapply same_outside_trans; [| apply same_outside_jq_blur]. by repeat split. }
  destruct (which =? 13); [by repeat split |].
  destruct (_ || _); [by repeat split |].
  destruct (_ || _); [by repeat split |].
  eapply same_outside_trans; [| by repeat split].
  eapply same_outside_trans; [| apply same_outside_autocomplete_loop].
  by repeat split.
Qed.

Lemma same_outside_on_end_search_click w :
  same_outside_searchbar w (on_end_search_click w).
Proof.
  unfold on_end_search_click.
  eapply same_outside_trans; [| by repeat split].
  eapply same_outside_trans; [| by repeat split].
  eapply same_outside_trans; [| apply same_outside_jq_blur]. by repeat split.
Qed.

Lemma same_outside_listen l which elem w :
  same_outside_searchbar w (listen l which elem w).
Proof.
  destruct l; simpl.
  - apply same_outside_on_keyup.
  - apply same_outside_on_end_search_click.
  - apply same_outside_on_focus.
  - by repeat split.
  - by repeat split.
  - by repeat split.
  - by repeat split.
Qed.

Lemma same_outside_click_at elem w : same_outside_searchbar w (click_at elem w).
Proof.
  unfold click_at.
  set (w1 := if JQ.hasClass "end-search" elem then _ else _).
  assert (H1 : same_outside_searchbar w w1).
  { subst w1. destruct (JQ.hasClass "end-search" elem);
      [apply same_outside_on_end_search_click | apply same_outside_refl]. }
  set (w2 := if JQ.hasClass "file-info" elem then _ else _).
  assert (H2 : same_outside_searchbar w1 w2).
  { subst w2. destruct (JQ.hasClass "file-info" elem); by repeat split. }
  eapply same_outside_trans; [exact H1 |].
  eapply same_outside_trans; [exact H2 |].
  destruct (JQ.hasClass "button" elem); by repeat split.
Qed.

(** X7.  No listener touches anything of the toolbar but the searchbar, the
    candidate list and the stored value: the classes and children of
    [#toolbar], the file-info elements and the progress indicator come out
    of every listener as they went in. *)
Theorem listeners_touch_only_the_searchbar (l : Listener) (which : Z)
    (elem : Element) w :
  _div (this (listen l which elem w)) = _div (this w) /\
  _fileInfo (this (listen l which elem w)) = _fileInfo (this w) /\
  _searchProgress (this (listen l which elem w)) = _searchProgress (this w).
Proof. apply same_outside_listen. Qed.

Lemma renderer_on_focus w :
  renderer (on_focus w) = (getFilesInDirectory (renderer w)).2.
Proof. unfold on_focus. simpl. by destruct (getFilesInDirectory (renderer w)). Qed.

Lemma set_searchbar_none f w :
  _searchbar (this w) = None -> on_this (set_searchbar f) w = w.
Proof.
  destruct w as [[d s fi sp ac ov] r fd]. simpl. intros ->. reflexivity.
Qed.

(** X8.  On a toolbar constructed over an empty [#toolbar], whatever has
    happened to it since, [focusSearch] returns [this]; when the toolbar has
    a searchbar it focuses the input and selects all of its unchanged value,
    and, through the focus listener, replaces the candidate list by what
    [renderer.getFilesInDirectory()] answers; the stored value stays.  When
    it has no searchbar input it does nothing at all.  (Over an empty
    [#toolbar] the file-info elements hold no element,
    [file_info_elements_are_empty], so the word count never takes the input
    out of the page.) *)
Theorem focusSearch_focuses_and_selects tpl t cl a (r : R) (evs : list Event) w :
  w = run evs (new tpl (Elem t cl a []) r) ->
  (focusSearch w).1 = RetThis /\
  match _searchbar (this w) with
  | Some i =>
      exists i', _searchbar (this (focusSearch w).2) = Some i' /\
                 focused i' = true /\ value i' = value i /\
                 Searchbar.selected i' = value i /\
                 _autocomplete (this (focusSearch w).2)
                 = (getFilesInDirectory (renderer w)).1 /\
                 renderer (focusSearch w).2
                 = (getFilesInDirectory (renderer w)).2 /\
                 _oldval (this (focusSearch w).2) = _oldval (this w)
  | None => (focusSearch w).2 = w
  end.
Proof.
  intros _. split; [reflexivity |].
  destruct (_searchbar (this w)) as [i|] eqn:Hi.
  - exists (Searchbar.select (Searchbar.select (Searchbar.set_focused true i))).
    unfold focusSearch. simpl.
    rewrite (searchbar_jq_focus _ _ Hi), oldval_jq_focus. simpl.
    split; [reflexivity | split; [reflexivity | split; [reflexivity |]]].
    split; [apply (selected_select (Searchbar.select (Searchbar.set_focused true i))) |].
    unfold jq_focus. rewrite Hi, this_on_focus, renderer_on_focus. by repeat split.
  - unfold focusSearch, jq_focus. rewrite Hi. simpl.
    by apply set_searchbar_none.
Qed.

End Frames.

(** ** Methods and events on a recording renderer *)

Section Traces.
Context {Str : JS.Strings} {Num : JS.Numbers} {Tr : I18n}.
Implicit Types w : World Recorder.t.

Lemma made_call (m : Method) w :
  made w (call m w).2
    (match m with
     | FocusSearch => if _searchbar (this w) is Some _ then [GetFilesInDirectory] else []
     | _ => []
     end).
Proof.
  destruct m; simpl; try (by apply made_same).
  - unfold updateWordCount. destruct (words =? 0); by apply made_same.
  - unfold jq_focus. destruct (_searchbar (this w)); [reflexivity | by apply made_same].
  - unfold searchProgress. destruct (JQ.hasClass _ _); by apply made_same.
Qed.

(** X9.  On a toolbar constructed over an empty [#toolbar], whatever has
    happened to it since, the public methods ask nothing of the renderer,
    with one exception: [focusSearch] on a toolbar that has a searchbar
    makes the single call [getFilesInDirectory()]. *)
Theorem methods_renderer_calls tpl t cl a (r : Recorder.t) (evs : list Event)
    (m : Method) w :
  w = run evs (new tpl (Elem t cl a []) r) ->
  Recorder.calls (renderer (call m w).2)
  = Recorder.calls (renderer w)
    ++ match m with
       | FocusSearch =>
           if _searchbar (this w) is Some _ then [GetFilesInDirectory] else []
       | _ => []
       end.
Proof. intros _. apply made_call. Qed.

Lemma made_click_at (elem : Element) w :
  made w (click_at elem w)
    ((if JQ.hasClass "end-search" elem then [ExitSearch] else [])
     ++ (if JQ.hasClass "file-info" elem then [GetBody_ShowFileInfo] else [])
     ++ dispatched (Click elem)).
Proof.
  unfold click_at.
  eapply made_trans; [| eapply made_trans].
  - instantiate (1 := if JQ.hasClass "end-search" elem
                      then on_end_search_click w else w).
    destruct (JQ.hasClass "end-search" elem);
      [apply made_on_end_search_click | apply made_refl].
  - instantiate (1 := if JQ.hasClass "file-info" elem
                      then on_file_info_click
                             (if JQ.hasClass "end-search" elem
                              then on_end_search_click w else w)
                      else (if JQ.hasClass "end-search" elem
                            then on_end_search_click w else w)).
    destruct (JQ.hasClass "file-info" elem);
      [apply made_on_file_info_click | apply made_refl].
  - simpl. destruct (JQ.hasClass "button" elem);
      [apply made_on_button_click | apply made_refl].
Qed.

Lemma made_handle (ev : Event) w :
  exists new, made w (handle ev w) new /\ handleEvents new = dispatched ev.
Proof.
  destruct ev; simpl.
  - destruct (_searchbar (this w)); [| exists []; split; [apply made_refl | done]].
    destruct (made_on_keyup which w) as (new & Hm & Hn).
    exists new. split; [exact Hm |].
    destruct (which =? 27); [by subst |].
    destruct (which =? 13); [by subst |].
    by destruct Hn as [-> | ->].
  - exists []. split; [by apply made_same | done].
  - destruct (_searchbar (this w)); [| exists []; split; [apply made_refl | done]].
    exists [GetFilesInDirectory]. split; [reflexivity | done].
  - destruct (_searchbar (this w)); exists []; (split; [by apply made_same | done]).
  - eexists. split; [apply made_click_at |].
    unfold handleEvents. rewrite !filter_app. simpl.
    destruct (JQ.hasClass "end-search" currentTarget),
      (JQ.hasClass "file-info" currentTarget),
      (JQ.hasClass "button" currentTarget); reflexivity.
  - eexists. split; [apply made_on_dblclick | done].
  - eexists. split; [apply made_call |]. destruct m; try done.
    by destruct (_searchbar (this w)).
Qed.

(** X10.  Commands reach the renderer only by clicks: over any sequence of
    events and method calls, the [handleEvent] calls the renderer receives
    are, in order, one per click arriving at a [.button] element, with that
    element's command and content, and one ['app-maximise'] per double
    click; keys, focus changes, other clicks and the public methods add
    none. *)
Theorem handleEvent_calls_are_the_clicks (evs : list Event) w :
  filter (fun c => Recorder.is_handleEvent c = true)
    (Recorder.calls (renderer (run evs w)))
  = filter (fun c => Recorder.is_handleEvent c = true)
      (Recorder.calls (renderer w))
    ++ flat_map dispatched evs.
Proof.
  revert w. induction evs as [|ev evs IH]; intros w; simpl.
  - by rewrite app_nil_r.
  - change (fold_left (fun w ev => handle ev w) evs (handle ev w))
      with (run evs (handle ev w)).
    rewrite IH. destruct (made_handle ev w) as (new & Hm & Hn).
    rewrite Hm, filter_app. fold (handleEvents new). rewrite Hn.
    by rewrite <- app_assoc.
Qed.

End Traces.

(** ** The progress indicator over several calls *)

Lemma find_class_with_classes c f (e : Element) :
  JQ.find_class c (JQ.with_classes f e) = JQ.find_class c e.
Proof. unfold JQ.find_class. by rewrite descendants_with_classes. Qed.

Lemma find_class_removeClass c v (e : Element) :
  JQ.find_class c (JQ.removeClass v e) = JQ.find_class c e.
Proof. apply find_class_with_classes. Qed.

Lemma find_class_addClass c v (e : Element) :
  JQ.find_class c (JQ.addClass v e) = JQ.find_class c e.
Proof. destruct v; [apply find_class_with_classes | reflexivity]. Qed.

Lemma length_find_class_attr_set c name v (e : Element) :
  length (JQ.find_class c (JQ.find_class_attr_set c name v e))
  = length (JQ.find_class c e).
Proof.
  pose proof (f_equal length (find_class_find_class_attr_set c name v e)) as H.
  by rewrite !length_fmap in H.
Qed.

Lemma hasClass_find_class_attr_set c' c name v (e : Element) :
  JQ.hasClass c' (JQ.find_class_attr_set c name v e) = JQ.hasClass c' e.
Proof. unfold JQ.hasClass. by rewrite classList_find_class_attr_set. Qed.

Section Indicator.
Context {Str : JS.Strings} {Num : JS.Numbers} {Tr : I18n}.
Context {R : Type} {Rd : Renderer R}.
Implicit Types w : World R.

(** X11.  [endSearch] hides the indicator without clearing the arc, and the
    next [searchProgress] only shows it again: the first progress report
    after a search has ended is shown with the arc the indicator had before,
    whatever [item] and [itemCnt] are. *)
Theorem first_progress_after_endSearch_shows_old_arc (item itemCnt : JS.number) w :
  JQ.hasClass "hidden"
    (_searchProgress (this (searchProgress item itemCnt (endSearch w).2).2))
  = false /\
  JQ.attr "d" <$> JQ.find_class "indicator-value"
    (_searchProgress (this (searchProgress item itemCnt (endSearch w).2).2))
  = JQ.attr "d" <$> JQ.find_class "indicator-value" (_searchProgress (this w)).
Proof.
  assert (Hh : JQ.hasClass "hidden" (_searchProgress (this (endSearch w).2)) = true)
    by apply hasClass_addClass_hidden.
  rewrite (searchProgress_on_hidden _ _ _ Hh).
  change (_searchProgress (this (on_this _ (endSearch w).2)))
    with (JQ.removeClass "hidden"
            (JQ.addClass (Some "hidden") (_searchProgress (this w)))).
  split; [apply hasClass_removeClass_hidden |].
  by rewrite find_class_removeClass, find_class_addClass.
Qed.

(** X12.  Two calls of [searchProgress] in a row always end with the
    indicator shown and the arc of the second call drawn, whether the
    indicator was hidden before or not. *)
Theorem second_progress_draws (item1 itemCnt1 item2 itemCnt2 : JS.number) w :
  JQ.hasClass "hidden"
    (_searchProgress
       (this (searchProgress item2 itemCnt2 (searchProgress item1 itemCnt1 w).2).2))
  = false /\
  JQ.attr "d" <$> JQ.find_class "indicator-value"
    (_searchProgress
       (this (searchProgress item2 itemCnt2 (searchProgress item1 itemCnt1 w).2).2))
  = (fun _ => Some (arc item2 itemCnt2))
      <$> JQ.find_class "indicator-value" (_searchProgress (this w)).
Proof.
  destruct (JQ.hasClass "hidden" (_searchProgress (this w))) eqn:Hh.
  - rewrite (searchProgress_on_hidden item1 itemCnt1 w Hh).
    rewrite searchProgress_on_visible by apply hasClass_removeClass_hidden.
    change (_searchProgress (this (on_this _ (on_this _ w))))
      with (JQ.find_class_attr_set "indicator-value" "d" (arc item2 itemCnt2)
              (JQ.removeClass "hidden" (_searchProgress (this w)))).
    rewrite hasClass_find_class_attr_set, find_class_find_class_attr_set.
    split; [apply hasClass_removeClass_hidden |].
    by rewrite find_class_removeClass.
  - rewrite (searchProgress_on_visible item1 itemCnt1 w Hh).
    assert (Hv : JQ.hasClass "hidden"
                   (_searchProgress
                      (this (on_this (set_searchProgress
                         (JQ.find_class_attr_set "indicator-value" "d"
                            (arc item1 itemCnt1))) w))) = false).
    { simpl. by rewrite hasClass_find_class_attr_set. }
    rewrite (searchProgress_on_visible _ _ _ Hv).
    change (_searchProgress (this (on_this _ (on_this _ w))))
      with (JQ.find_class_attr_set "indicator-value" "d" (arc item2 itemCnt2)
              (JQ.find_class_attr_set "indicator-value" "d" (arc item1 itemCnt1)
                 (_searchProgress (this w)))).
    rewrite !hasClass_find_class_attr_set, find_class_find_class_attr_set.
    split; [exact Hh |].
    rewrite !(const_fmap _ _ (Some (arc item2 itemCnt2))) by reflexivity.
    by rewrite length_find_class_attr_set.
Qed.

Lemma indicator_call (m : Method) w :
  (exists d, JQ.attr "d" <$> JQ.find_class "indicator-value" (_searchProgress (this w))
             = [Some d] /\ blank_or_arc d) ->
  exists d, JQ.attr "d" <$> JQ.find_class "indicator-value"
                              (_searchProgress (this (call m w).2))
            = [Some d] /\ blank_or_arc d.
Proof.
  intros (d & Hd & Hb). destruct m; cbn [call].
  - unfold updateWordCount. destruct (words =? 0); exists d; by split.
  - exists d. by split.
  - exists d. by split.
  - change (_searchProgress (this (focusSearch w).2))
      with (_searchProgress (this (jq_focus w))).
    destruct (same_outside_jq_focus w) as (_ & _ & ->). exists d. by split.
  - exists d. by split.
  - destruct (JQ.hasClass "hidden" (_searchProgress (this w))) eqn:Hh.
    + rewrite (searchProgress_on_hidden _ _ _ Hh).
      change (_searchProgress (this (on_this _ w)))
        with (JQ.removeClass "hidden" (_searchProgress (this w))).
      rewrite find_class_removeClass. exists d. by split.
    + rewrite (searchProgress_on_visible _ _ _ Hh).
      change (_searchProgress (this (on_this _ w)))
        with (JQ.find_class_attr_set "indicator-value" "d" (arc item itemCnt)
                (_searchProgress (this w))).
      exists (arc item itemCnt).
      rewrite find_class_find_class_attr_set.
      pose proof (f_equal length Hd) as Hl. rewrite length_fmap in Hl.
      destruct (JQ.find_class "indicator-value" (_searchProgress (this w)))
        as [|p [|q l]]; [discriminate | | discriminate].
      split; [reflexivity | right; by eauto].
  - change (_searchProgress (this (endSearch w).2))
      with (JQ.addClass (Some "hidden") (_searchProgress (this w))).
    rewrite find_class_addClass. exists d. by split.
Qed.

Lemma indicator_handle (ev : Event) w :
  (exists d, JQ.attr "d" <$> JQ.find_class "indicator-value" (_searchProgress (this w))
             = [Some d] /\ blank_or_arc d) ->
  exists d, JQ.attr "d" <$> JQ.find_class "indicator-value"
                              (_searchProgress (this (handle ev w)))
            = [Some d] /\ blank_or_arc d.
Proof.
  intros H. destruct ev; simpl; try exact H.
  - destruct (_searchbar (this w)); [| exact H].
    by destruct (same_outside_on_keyup which w) as (_ & _ & ->).
  - destruct (_searchbar (this w)); [| exact H].
    match goal with
    | |- context [on_focus ?x] =>
        destruct (same_outside_on_focus x) as (_ & _ & ->)
    end. exact H.
  - by destruct (_searchbar (this w)).
  - by destruct (same_outside_click_at currentTarget w) as (_ & _ & ->).
  - by apply indicator_call.
Qed.

(** X13.  Whatever happens to a constructed toolbar, its progress indicator
    keeps exactly one [.indicator-value] path, and the [d] attribute of that
    path is either still empty or an arc written by [searchProgress]. *)
Theorem indicator_holds_one_arc tpl div (r : R) (evs : list Event) :
  exists d,
    JQ.attr "d" <$> JQ.find_class "indicator-value"
      (_searchProgress (this (run evs (new tpl div r))))
    = [Some d]
    /\ blank_or_arc d.
Proof.
  assert (H0 : exists d,
             JQ.attr "d" <$> JQ.find_class "indicator-value"
               (_searchProgress (this (new tpl div r))) = [Some d]
             /\ blank_or_arc d).
  { exists "". split; [reflexivity | by left]. }
  revert H0. generalize (new tpl div r). unfold run.
  induction evs as [|ev evs IH]; intros w H; simpl; [exact H |].
  apply IH, indicator_handle, H.
Qed.

End Indicator.

(** ** What the constructor finds in the built toolbar *)

Lemma childNodes_addClass v (e : Element) :
  DOM.childNodes (JQ.addClass v e) = DOM.childNodes e.
Proof. by destruct v, e. Qed.

Lemma childNodes_attr_set name v (e : Element) :
  DOM.childNodes (JQ.attr_set name v e) = DOM.childNodes e.
Proof. by destruct v, e. Qed.

Lemma childNodes_html p (e : Element) : DOM.childNodes (JQ.html p e) = p.
Proof. by destruct e. Qed.

Lemma descendants_childNodes (e : Element) :
  DOM.descendants e
  = flat_map (fun k => match k with
                       | inl e' => e' :: DOM.descendants e'
                       | inr _ => []
                       end) (DOM.childNodes e).
Proof. by destruct e. Qed.

Lemma attr_addClass name v (e : Element) :
  JQ.attr name (JQ.addClass v e) = JQ.attr name e.
Proof. by destruct v, e. Qed.

Lemma attr_attr_set_ne name name' v (e : Element) :
  name ≠ name' -> JQ.attr name (JQ.attr_set name' v e) = JQ.attr name e.
Proof.
  intros Hn. destruct v, e; [| reflexivity].
  unfold JQ.attr. simpl. by rewrite lookup_insert_ne.
Qed.

Lemma attr_set_None name (e : Element) : JQ.attr_set name None e = e.
Proof. by destruct e. Qed.

Lemma classList_addClass v (e : Element) :
  DOM.classList (JQ.addClass (Some v) e)
  = fold_left (fun l c => JQ.add1 c l) (DOM.class_names v) (DOM.classList e).
Proof. by destruct e. Qed.

Lemma filter_none {A : Type} (P : A -> Prop) `{!forall x, Decision (P x)}
    (l : list A) :
  Forall (fun x => ~ P x) l -> filter P l = [].
Proof.
  induction 1 as [|x l Hx _ IH]; [reflexivity |].
  by rewrite filter_cons_False.
Qed.

Section Constructed.
Context {Tr : I18n}.

(** The children of a built [div]: none, but for the searchbar and the
    pomodoro button. *)
Lemma childNodes_build_child (elem : Descriptor) :
  DOM.childNodes (build_child elem)
  = if decide (role elem = "button") then []
    else if decide (role elem = "searchbar") then Markup.searchbar
    else if decide (role elem = "pomodoro") then Markup.pomodoro
    else [].
Proof.
  unfold build_child. repeat case_decide;
    by rewrite ?childNodes_html, ?childNodes_attr_set, ?childNodes_addClass.
Qed.

(** Below a built [div] there are no class names but those of the markup. *)
Lemma inner_classes (elem : Descriptor) (e : Element) (c : string) :
  e ∈ DOM.descendants (build_child elem) -> c ∈ DOM.classList e ->
  c ∈ ["end-search"; "pomodoro-meter"; "pomodoro-value"].
Proof.
  rewrite descendants_childNodes, childNodes_build_child.
  repeat case_decide; simpl; intros He Hc.
  - by apply elem_of_nil in He.
  - apply elem_of_cons in He as [-> | He]; [by apply elem_of_nil in Hc |].
    apply elem_of_cons in He as [-> | He];
      [apply list_elem_of_singleton in Hc as ->; by left |].
    by apply elem_of_nil in He.
  - apply elem_of_cons in He as [-> | He]; [by apply elem_of_nil in Hc |].
    apply elem_of_cons in He as [-> | He];
      [apply list_elem_of_singleton in Hc as ->; right; by left |].
    apply elem_of_cons in He as [-> | He];
      [apply list_elem_of_singleton in Hc as ->; right; right; by left |].
    by apply elem_of_nil in He.
  - by apply elem_of_nil in He.
Qed.

Lemma find_class_build_child (elem : Descriptor) (c : string) :
  c ∉ ["end-search"; "pomodoro-meter"; "pomodoro-value"] ->
  JQ.find_class c (build_child elem) = [].
Proof.
  intros Hc. unfold JQ.find_class. apply filter_none, Forall_forall.
  intros e He Hh. apply Hc. apply (inner_classes elem e c He).
  unfold JQ.hasClass in Hh. by apply bool_decide_eq_true in Hh.
Qed.

Lemma descendants_build (tpl : list Descriptor) t cl a :
  DOM.descendants (_build tpl (Elem t cl a []))
  = flat_map (fun d => build_child d :: DOM.descendants (build_child d)) tpl.
Proof.
  rewrite build_append, descendants_Elem, app_nil_l.
  induction tpl as [|d tpl IH]; [reflexivity |].
  rewrite fmap_cons. cbn [flat_map]. by rewrite IH.
Qed.

(** In a toolbar built into an empty [#toolbar], a class name that the
    markup of the searchbar and the pomodoro button does not use is found on
    built [div]s only. *)
Lemma find_class_build (tpl : list Descriptor) t cl a (c : string) :
  c ∉ ["end-search"; "pomodoro-meter"; "pomodoro-value"] ->
  JQ.find_class c (_build tpl (Elem t cl a []))
  = filter (fun e => JQ.hasClass c e = true) (build_child <$> tpl).
Proof.
  intros Hc. unfold JQ.find_class at 1. rewrite descendants_build.
  induction tpl as [|d tpl IH]; [reflexivity |].
  cbn [flat_map]. rewrite fmap_cons, filter_app, IH, !filter_cons.
  fold (JQ.find_class c (build_child d)).
  rewrite (find_class_build_child d c Hc).
  by destruct (decide (JQ.hasClass c (build_child d) = true)).
Qed.

(** X15.  Constructed over an empty [#toolbar], the toolbar writes the word
    count into exactly the built [div]s that carry the class [file-info],
    and the elements with class [button], the ones that get the button
    listener, are exactly the built [div]s that carry it: nothing inside a
    searchbar or a pomodoro button is among either. *)
Theorem constructor_finds_built_divs (tpl : list Descriptor) t cl a :
  _fileInfo (constructor tpl (Elem t cl a []))
  = filter (fun e => JQ.hasClass "file-info" e = true) (build_child <$> tpl) /\
  JQ.find_class "button" (_div (constructor tpl (Elem t cl a [])))
  = filter (fun e => JQ.hasClass "button" e = true) (build_child <$> tpl).
Proof.
  split; apply find_class_build; intros H;
    repeat (apply elem_of_cons in H as [H | H]; [discriminate H |]);
    by apply elem_of_nil in H.
Qed.

(** Over an empty [#toolbar] the file-info elements the constructor finds
    hold no element: a built [div] has children only when its role is
    [searchbar] or [pomodoro], and then it has no class [file-info]. *)
Lemma file_info_elements_are_empty (tpl : list Descriptor) t cl a :
  Forall (fun e => DOM.descendants e = [])
    (_fileInfo (constructor tpl (Elem t cl a []))).
Proof.
  unfold constructor. simpl _fileInfo. rewrite find_class_build
    by (intros H; repeat (apply elem_of_cons in H as [H | H]; [discriminate H |]);
        by apply elem_of_nil in H).
  apply Forall_forall. intros e He.
  apply list_elem_of_filter in He as [Hc He].
  apply list_elem_of_fmap in He as (d & -> & _).
  rewrite descendants_childNodes, childNodes_build_child.
  destruct d as [ro c cm co ti]. simpl in *.
  repeat case_decide; subst; try reflexivity; discriminate Hc.
Qed.

Lemma find_class_searchbar_build before d after t cl a :
  Forall (fun d => JQ.hasClass "searchbar" (build_child d) = false) before ->
  JQ.hasClass "searchbar" (build_child d) = true ->
  head (JQ.find_class "searchbar" (_build (before ++ d :: after) (Elem t cl a [])))
  = Some (build_child d).
Proof.
  intros Hb Hd. rewrite find_class_build
    by (intros H; repeat (apply elem_of_cons in H as [H | H]; [discriminate H |]);
        by apply elem_of_nil in H).
  rewrite fmap_app, filter_app, fmap_cons, filter_cons.
  destruct (decide (JQ.hasClass "searchbar" (build_child d) = true)); [| done].
  replace (filter _ (build_child <$> before)) with (@nil Element); [reflexivity |].
  symmetry. apply filter_none, Forall_fmap.
  eapply Forall_impl; [exact Hb |]. simpl. intros x Hx. by rewrite Hx.
Qed.

(** X16.  Over an empty [#toolbar], when the first descriptor whose [div]
    carries the class [searchbar] has the role [searchbar], the constructor
    finds the text input: [_searchbar] is an empty, unfocused input of type
    text with the translated placeholder. *)
Theorem constructor_finds_searchbar before sb after t cl a :
  role sb = "searchbar" ->
  Forall (fun d => JQ.hasClass "searchbar" (build_child d) = false) before ->
  exists i,
    _searchbar (constructor (before ++ sb :: after) (Elem t cl a [])) = Some i /\
    value i = "" /\
    input_attributes i !! "type" = Some "text" /\
    input_attributes i !! "placeholder"
    = Some (trans (Some "gui.find_placeholder") []) /\
    selectionStart i = 0%nat /\ selectionEnd i = 0%nat /\ focused i = false.
Proof.
  intros Hr Hb. destruct sb as [ro c cm co ti]. simpl in Hr. subst ro.
  set (sb := {| role := "searchbar"; class := c; command := cm;
                content := co; title := ti |}).
  assert (Hsb : JQ.hasClass "searchbar" (build_child sb) = true) by reflexivity.
  unfold constructor, find_searchbar. simpl _searchbar.
  rewrite (find_class_searchbar_build before sb after t cl a Hb Hsb).
  subst sb. rewrite build_child_searchbar. simpl.
  eexists. split; [reflexivity |]. repeat split.
Qed.

(** X17.  [.first()] does not look further: over an empty [#toolbar], when
    the first [div] carrying the class [searchbar] was built for another
    role, no input is found and [_searchbar] is empty, whatever follows in
    the template. *)
Theorem constructor_misses_searchbar before d after t cl a :
  Forall (fun d => JQ.hasClass "searchbar" (build_child d) = false) before ->
  JQ.hasClass "searchbar" (build_child d) = true ->
  role d ≠ "searchbar" ->
  _searchbar (constructor (before ++ d :: after) (Elem t cl a [])) = None.
Proof.
  intros Hb Hd Hr. unfold constructor, find_searchbar. simpl _searchbar.
  rewrite (find_class_searchbar_build before d after t cl a Hb Hd). simpl.
  unfold JQ.find_tag. rewrite descendants_childNodes, childNodes_build_child.
  repeat case_decide; try done.
Qed.

End Constructed.

(** ** Clicks on what [_build] built *)

Section Built_clicks.
Context {Str : JS.Strings} {Num : JS.Numbers} {Tr : I18n}.
Implicit Types w : World Recorder.t.

Lemma build_child_button_facts (elem : Descriptor) :
  role elem = "button" ->
  JQ.hasClass "button" (build_child elem) = true /\
  JQ.attr "data-command" (build_child elem) = command elem /\
  JQ.attr "data-content" (build_child elem) = content elem.
Proof.
  destruct elem as [ro c cm co ti]. simpl. intros ->.
  rewrite build_child_button.
  assert (Hbase : JQ.addClass (Some "button") (Elem "div" [] ∅ [])
                  = Elem "div" ["button"] ∅ []) by reflexivity.
  rewrite Hbase. clear Hbase. split; [| split].
  - unfold JQ.hasClass. apply bool_decide_eq_true.
    rewrite !classList_attr_set. destruct c as [c|]; simpl.
    + apply elem_of_fold_add1. left. by apply list_elem_of_singleton.
    + by apply list_elem_of_singleton.
  - rewrite !attr_attr_set_ne by done.
    destruct cm; [apply attr_attr_set |].
    by rewrite attr_set_None, attr_addClass.
  - rewrite attr_attr_set_ne by done.
    destruct co; [apply attr_attr_set |].
    rewrite attr_set_None, attr_attr_set_ne by done. by rewrite attr_addClass.
Qed.

(** X18.  What the template says is what the renderer gets.  A click on the
    [div] built for a [button] descriptor makes exactly one [handleEvent]
    call, with the descriptor's command, or ['unknown-command'] when it has
    none or an empty one, and its content, or [{}]; a click on a pomodoro
    button calls [handleEvent('pomodoro', {})] and nothing else. *)
Theorem click_on_built_button (elem : Descriptor) w :
  (role elem = "button" ->
   exists before,
     made w (click_at (build_child elem) w)
       (before
        ++ [HandleEvent (JS.or_string (command elem) "unknown-command")
                        (JS.or_value (content elem) JS.empty_object)])
     /\ Forall (fun c => Recorder.is_handleEvent c = false) before) /\
  (role elem = "pomodoro" ->
   made w (click_at (build_child elem) w)
     [HandleEvent "pomodoro" JS.empty_object]).
Proof.
  split; intros Hr.
  - destruct (build_child_button_facts elem Hr) as (Hb & Hcm & Hco).
    pose proof (made_click_at (build_child elem) w) as Hm.
    simpl in Hm. rewrite Hb, Hcm, Hco, app_assoc in Hm.
    eexists. split; [exact Hm |].
    apply Forall_app. split.
    + destruct (JQ.hasClass "end-search" _); repeat constructor.
    + destruct (JQ.hasClass "file-info" _); repeat constructor.
  - destruct elem as [ro c cm co ti]. simpl in Hr. subst ro.
    rewrite build_child_pomodoro. apply made_click_at.
Qed.

End Built_clicks.

(** ** The word count and the search term *)

Lemma text_text (s s' : string) (e : Element) :
  JQ.text s (JQ.text s' e) = JQ.text s e.
Proof. by destruct e. Qed.

Section Word_count.
Context {Str : JS.Strings} {Num : JS.Numbers} {Tr : I18n}.
Context {R : Type} {Rd : Renderer R}.
Implicit Types w : World R.

Lemma set_text_twice (s s' : string) w :
  on_this (set_fileInfo (JQ.text s)) (on_this (set_fileInfo (JQ.text s')) w)
  = on_this (set_fileInfo (JQ.text s)) w.
Proof.
  unfold on_this, set_fileInfo. simpl. do 2 f_equal.
  rewrite <- list_fmap_compose. apply list_fmap_ext. intros _ e _.
  apply text_text.
Qed.

(** X19.  The word count shown depends on the last call only: calling
    [updateWordCount] after an earlier [updateWordCount] gives the toolbar
    and the result the later call alone would give. *)
Theorem updateWordCount_last_wins (words words' : Z) w :
  updateWordCount words' (updateWordCount words w).2 = updateWordCount words' w.
Proof.
  unfold updateWordCount, hideWordCount.
  destruct (words =? 0), (words' =? 0); simpl; by rewrite set_text_twice.
Qed.

Lemma renderer_on_keyup_return w :
  renderer (on_keyup 13 w) = beginSearch (searchbar_val w) (renderer w).
Proof. reflexivity. Qed.

(** X20.  [setSearch] writes the term into the searchbar without touching
    the stored value, and RETURN after it hands that very term to
    [renderer.beginSearch]; on a toolbar without a searchbar input
    [setSearch] does nothing. *)
Theorem setSearch_then_return (term : string) w :
  match _searchbar (this w) with
  | Some _ =>
      searchbar_val (setSearch term w).2 = term /\
      _oldval (this (setSearch term w).2) = _oldval (this w) /\
      renderer (setSearch term w).2 = renderer w /\
      renderer (on_keyup 13 (setSearch term w).2) = beginSearch term (renderer w)
  | None => (setSearch term w).2 = w
  end.
Proof.
  destruct (_searchbar (this w)) as [i|] eqn:Hi.
  - assert (Hv : searchbar_val (setSearch term w).2 = term).
    { unfold searchbar_val, setSearch. simpl. rewrite Hi. simpl.
      apply value_val_set. }
    split; [exact Hv | split; [reflexivity | split; [reflexivity |]]].
    by rewrite renderer_on_keyup_return, Hv.
  - unfold setSearch. simpl. by apply set_searchbar_none.
Qed.

End Word_count.

(** ** The further properties at the sample toolbar *)

Lemma lower_string_append (a b : string) :
  Sample.lower_string (a +:+ b) = Sample.lower_string a +:+ Sample.lower_string b.
Proof.
  induction a as [|c a IH]; [reflexivity |].
  rewrite append_cons. simpl. by rewrite IH, append_cons.
Qed.

(** X1, witness: ESC while "no" is typed into the sample searchbar. *)
Lemma escape_ends_search_witness :
  _searchbar (this Sample.typing) = Some Sample.typed /\
  Recorder.calls (renderer (on_keyup 27 Sample.typing))
  = [GetFilesInDirectory; ExitSearch] /\
  _autocomplete (this (on_keyup 27 Sample.typing)) = [] /\
  _oldval (this (on_keyup 27 Sample.typing)) = "".
Proof.
  split; [reflexivity |].
  destruct (escape_ends_search Sample.typing Sample.typed eq_refl)
    as (_ & Hr & _ & _ & Ha & Ho & _).
  split; [by rewrite Hr | by split].
Defined.

(** X2, witness: RETURN while "no" is typed. *)
Lemma return_begins_search_witness :
  _searchbar (this Sample.typing) = Some Sample.typed /\
  Recorder.calls (renderer (on_keyup 13 Sample.typing))
  = [GetFilesInDirectory; BeginSearch "no"].
Proof.
  split; [reflexivity |].
  destruct (return_begins_search Sample.typing Sample.typed eq_refl) as (Hr & _).
  by rewrite Hr.
Defined.

(** X3, witness: backspace while "no" is typed. *)
Lemma keyup_without_change_is_ignored_witness :
  this (on_keyup 8 Sample.typing) = this Sample.typing /\
  renderer (on_keyup 8 Sample.typing) = renderer Sample.typing.
Proof.
  apply (keyup_without_change_is_ignored 8 Sample.typing);
    [lia | lia | by left].
Defined.

(** X4, witness: the key "o" and then an arrow key. *)
Lemma keyup_again_changes_nothing_witness :
  this (on_keyup 39 (on_keyup 79 Sample.typing)) = this (on_keyup 79 Sample.typing) /\
  renderer (on_keyup 39 (on_keyup 79 Sample.typing))
  = renderer (on_keyup 79 Sample.typing).
Proof.
  apply (keyup_again_changes_nothing 79 39 Sample.typing); lia.
Defined.

(** X5, witness: the whole of "readme.md" typed; two names are passed over
    and the third is as long as the text. *)
Lemma keyup_on_fully_typed_name_witness :
  _searchbar (this Sample.full_typing) = Some Sample.full_typed /\
  exists i',
    _searchbar (this (on_keyup 68 Sample.full_typing)) = Some i' /\
    value i' = "readme.md" /\ selectionStart i' = 9%nat /\
    selectionEnd i' = 9%nat /\ Searchbar.selected i' = "".
Proof.
  split; [reflexivity |].
  apply (keyup_on_fully_typed_name 68 Sample.full_typing Sample.full_typed
           ["Notes.md"; "notebook.md"] "Readme.md" []);
    try reflexivity; try lia; try discriminate;
    try (repeat constructor; discriminate); simpl; lia.
Defined.

(** X6, witness: "no" is completed to "Notes.md" up to case. *)
Lemma keyup_completes_to_the_name_witness :
  _searchbar (this Sample.typing) = Some Sample.typed /\
  exists i',
    _searchbar (this (on_keyup 79 Sample.typing)) = Some i' /\
    Sample.lower_string (value i') = "notes.md" /\
    String.length (value i') = 8%nat.
Proof.
  split; [reflexivity |].
  destruct (keyup_completes_to_the_name (Str := Sample.strings) 79 Sample.typing Sample.typed
              [] "Notes.md" ["notebook.md"; "Readme.md"]
              lower_string_append eq_refl
              ltac:(lia) ltac:(lia) ltac:(lia) ltac:(lia)
              ltac:(discriminate) ltac:(discriminate)
              eq_refl ltac:(constructor) eq_refl)
    as (i' & Hi' & Hl & Hn).
  exists i'. split; [exact Hi' | split; [exact Hl |]].
  apply Hn. simpl. lia.
Defined.

(** X16, witness: the sample template, whose searchbar follows a button. *)
Lemma constructor_finds_searchbar_witness :
  role Sample.searchbar_descriptor = "searchbar" /\
  Forall (fun d => JQ.hasClass "searchbar" (build_child d) = false)
    [Sample.file_new] /\
  exists i,
    _searchbar (constructor
                  ([Sample.file_new] ++ Sample.searchbar_descriptor
                     :: [Sample.pomodoro_descriptor])
                  Sample.toolbar_div) = Some i /\
    value i = "" /\
    input_attributes i !! "placeholder" = Some "gui.find_placeholder".
Proof.
  split; [reflexivity |].
  assert (Hb : Forall (fun d => JQ.hasClass "searchbar" (build_child d) = false)
                 [Sample.file_new]) by (repeat constructor).
  split; [exact Hb |].
  destruct (constructor_finds_searchbar [Sample.file_new]
              Sample.searchbar_descriptor [Sample.pomodoro_descriptor]
              "div" [] (Markup.attrs [("id", "toolbar")]) eq_refl Hb)
    as (i & Hi & Hv & _ & Hp & _).
  exists i. by repeat split.
Defined.

(** X17, witness: a button that lists [searchbar] among its classes, put
    before the searchbar, hides it from the constructor. *)
Lemma constructor_misses_searchbar_witness :
  JQ.hasClass "searchbar" (build_child Sample.wide_button) = true /\
  role Sample.wide_button ≠ "searchbar" /\
  _searchbar (constructor
                ([Sample.file_new] ++ Sample.wide_button
                   :: [Sample.searchbar_descriptor])
                Sample.toolbar_div) = None.
Proof.
  split; [reflexivity | split; [discriminate |]].
  apply (constructor_misses_searchbar [Sample.file_new] Sample.wide_button
           [Sample.searchbar_descriptor] "div" []
           (Markup.attrs [("id", "toolbar")]));
    [repeat constructor | reflexivity | discriminate].
Defined.

(** X18, witness: the first button and the pomodoro button of the sample. *)
Lemma click_on_built_button_witness :
  role Sample.file_new = "button" /\
  role Sample.pomodoro_descriptor = "pomodoro" /\
  (exists before,
      made Sample.world (click_at (build_child Sample.file_new) Sample.world)
        (before ++ [HandleEvent "file-new" (JS.str "{}")])
      /\ Forall (fun c => Recorder.is_handleEvent c = false) before) /\
  made Sample.world
    (click_at (build_child Sample.pomodoro_descriptor) Sample.world)
    [HandleEvent "pomodoro" JS.empty_object].
Proof.
  split; [reflexivity | split; [reflexivity |]].
  split.
  - apply (proj1 (click_on_built_button Sample.file_new Sample.world) eq_refl).
  - apply (proj2 (click_on_built_button Sample.pomodoro_descriptor Sample.world)
             eq_refl).
Defined.

(** X8, witness: the sample toolbar, focused and typed into. *)
Lemma focusSearch_focuses_and_selects_witness :
  Sample.typing
  = run [Focus; Edit "no"]
      (new Sample.tpl (Elem "div" [] (Markup.attrs [("id", "toolbar")]) [])
         Sample.directory) /\
  exists i',
    _searchbar (this (focusSearch Sample.typing).2) = Some i' /\
    focused i' = true /\ value i' = "no" /\ Searchbar.selected i' = "no" /\
    _autocomplete (this (focusSearch Sample.typing).2)
    = ["Notes.md"; "notebook.md"; "Readme.md"].
Proof.
  split; [reflexivity |].
  destruct (focusSearch_focuses_and_selects Sample.tpl "div" []
              (Markup.attrs [("id", "toolbar")]) Sample.directory
              [Focus; Edit "no"] Sample.typing eq_refl) as [_ H].
  assert (Hs : _searchbar (this Sample.typing) = Some Sample.typed) by reflexivity.
  rewrite Hs in H. destruct H as (i' & Hi' & Hf & Hv & Hsel & Ha & _).
  exists i'. by repeat split.
Defined.

(** X9, witness: [focusSearch] on the same toolbar asks once more for the
    files. *)
Lemma methods_renderer_calls_witness :
  Sample.typing
  = run [Focus; Edit "no"]
      (new Sample.tpl (Elem "div" [] (Markup.attrs [("id", "toolbar")]) [])
         Sample.directory) /\
  Recorder.calls (renderer (call FocusSearch Sample.typing).2)
  = [GetFilesInDirectory; GetFilesInDirectory].
Proof.
  split; [reflexivity |].
  apply (methods_renderer_calls Sample.tpl "div" []
           (Markup.attrs [("id", "toolbar")]) Sample.directory
           [Focus; Edit "no"] FocusSearch Sample.typing eq_refl).
Defined.
